(** * Pomotodo: the timer state machine and the task-progress accounting

    A shallow embedding of the application logic of [pomotodo.py] (the class
    [PomodoroAppWithTodo]) and of [drag_task.py] ([DraggableListWidget]),
    together with the properties of the timer/session state machine and of
    the task store.

    Conventions of the embedding.
    - Python [int]s are [Z]; list positions are [Z] too, since the code
      compares them with [0 <= row < len(...)].
    - A task is a Python [dict] with the four keys [text], [estimated],
      [completed], [done].  Dicts are objects with identity that the code
      mutates through references, so the model keeps them in a [heap] and
      the list [self.tasks] holds values: references to dicts, or (after a
      drag-and-drop, see [dropEvent]) plain integers.
    - Handlers that can raise return [res App]; the others return [App].
    - What the handlers do to the outside world (the [QTimer], the media
      player, message boxes, the JSON file) is recorded, in order, in the
      field [log].  Widget texts and style sheets are not modelled. *)

From Stdlib Require Import ZArith String Ascii List Lia Bool.
From stdpp Require Import base tactics option list numbers strings.
Import ListNotations.

Local Open Scope Z_scope.

(* ===================================================================== *)
(** ** Python values and primitives *)
(* ===================================================================== *)

Module Py.

Inductive exn :=
| TypeError            (* subscripting an [int] *)
| ZeroDivisionError    (* [x % 0] *)
| IndexError           (* list index out of range *)
| Unallocated.         (* a reference outside the heap; no Python run reaches it *)

Inductive res (A : Type) : Type :=
| Ok (a : A)
| Raise (e : exn).
Arguments Ok {A} a.
Arguments Raise {A} e.

Definition bind {A B} (m : res A) (k : A -> res B) : res B :=
  match m with
  | Ok a => k a
  | Raise e => Raise e
  end.

Definition len {A} (l : list A) : Z := Z.of_nat (length l).

(** [l[i]], with Python's negative positions counted from the end. *)
Definition getitem {A} (l : list A) (i : Z) : res A :=
  let j := if i <? 0 then len l + i else i in
  if j <? 0 then Raise IndexError
  else match l !! Z.to_nat j with
       | Some x => Ok x
       | None => Raise IndexError
       end.

(** [a % b]: the remainder has the sign of the divisor, as [Z.modulo]. *)
Definition mod_ (a b : Z) : res Z :=
  if b =? 0 then Raise ZeroDivisionError else Ok (a mod b).

(** [str.isspace] on the code points below 256. *)
Definition isspace (c : ascii) : bool :=
  let n := Z.of_nat (nat_of_ascii c) in
  ((9 <=? n) && (n <=? 13)) || ((28 <=? n) && (n <=? 32))
  || (n =? 133) || (n =? 160).

Fixpoint lstrip (s : string) : string :=
  match s with
  | EmptyString => EmptyString
  | String c s' => if isspace c then lstrip s' else s
  end.

Definition rstrip (s : string) : string :=
  String.rev (lstrip (String.rev s)).

(** [s.strip()] *)
Definition strip (s : string) : string := rstrip (lstrip s).

(** truth value of a [str]: [not s] holds of the empty string only *)
Definition truthy (s : string) : bool :=
  match s with
  | EmptyString => false
  | String _ _ => true
  end.

(** [sorted(xs, reverse=True)] on integers, by insertion. *)
Fixpoint insert_desc (x : Z) (l : list Z) : list Z :=
  match l with
  | [] => [x]
  | y :: l' => if y <=? x then x :: l else y :: insert_desc x l'
  end.

Definition sorted_reverse (l : list Z) : list Z :=
  foldr insert_desc [] l.

End Py.

Import Py.

#[local] Instance res_bind : MBind res := fun A B k m => Py.bind m k.

(* ===================================================================== *)
(** ** Data model *)
(* ===================================================================== *)

(** The dict built by [_add_task]: [{"text", "estimated", "completed", "done"}]. *)
Record Task := mkTask {
  text : string;
  estimated : Z;
  completed : Z;
  done : bool
}.

Definition loc := nat.

(** What a slot of [self.tasks] can hold. *)
Inductive pyval :=
| VDict (l : loc)      (* a task dict, by reference *)
| VInt (n : Z).

#[local] Instance pyval_eq_dec : EqDecision pyval.
Proof. solve_decision. Defined.

(** [self.current_state] takes the three strings ["pomodoro"],
    ["short_break"] and ["long_break"]. *)
Inductive phase := pomodoro | short_break | long_break.

#[local] Instance phase_eq_dec : EqDecision phase.
Proof. solve_decision. Defined.

(** The two preloaded sounds. *)
Inductive media := focus_end_mp3 | break_end_mp3.

Inductive event :=
| TimerStart                              (* [self.timer.start(1000)] *)
| TimerStop                               (* [self.timer.stop()] *)
| Play (m : media)                        (* [media_player.setSource(m); play()] *)
| Information (title about : string)      (* [QMessageBox.information] *)
| Warning (title message : string)        (* [QMessageBox.warning] *)
| Question (title : string)               (* [QMessageBox.question] *)
| SaveData.                               (* [_save_data]: the file is rewritten *)

Record App := mkApp {
  heap : list Task;
  tasks : list pyval;
  focus_time : Z;
  short_break_time : Z;
  long_break_time : Z;
  long_break_interval : Z;
  focus_end_media : option media;
  break_end_media : option media;
  current_time_left : Z;
  is_running : bool;
  current_state : phase;
  completed_pomodoros_in_cycle : Z;
  current_task_index : option Z;
  items : list Z;      (* task_list_widget: the UserRole datum of each item, top down *)
  log : list event
}.

(** *** Field updates *)

Definition set_heap (v : list Task) (s : App) : App :=
  mkApp v (tasks s) (focus_time s) (short_break_time s) (long_break_time s)
        (long_break_interval s) (focus_end_media s) (break_end_media s)
        (current_time_left s) (is_running s) (current_state s)
        (completed_pomodoros_in_cycle s) (current_task_index s) (items s) (log s).

Definition set_tasks (v : list pyval) (s : App) : App :=
  mkApp (heap s) v (focus_time s) (short_break_time s) (long_break_time s)
        (long_break_interval s) (focus_end_media s) (break_end_media s)
        (current_time_left s) (is_running s) (current_state s)
        (completed_pomodoros_in_cycle s) (current_task_index s) (items s) (log s).

Definition set_current_time_left (v : Z) (s : App) : App :=
  mkApp (heap s) (tasks s) (focus_time s) (short_break_time s) (long_break_time s)
        (long_break_interval s) (focus_end_media s) (break_end_media s)
        v (is_running s) (current_state s)
        (completed_pomodoros_in_cycle s) (current_task_index s) (items s) (log s).

Definition set_is_running (v : bool) (s : App) : App :=
  mkApp (heap s) (tasks s) (focus_time s) (short_break_time s) (long_break_time s)
        (long_break_interval s) (focus_end_media s) (break_end_media s)
        (current_time_left s) v (current_state s)
        (completed_pomodoros_in_cycle s) (current_task_index s) (items s) (log s).

Definition set_current_state (v : phase) (s : App) : App :=
  mkApp (heap s) (tasks s) (focus_time s) (short_break_time s) (long_break_time s)
        (long_break_interval s) (focus_end_media s) (break_end_media s)
        (current_time_left s) (is_running s) v
        (completed_pomodoros_in_cycle s) (current_task_index s) (items s) (log s).

Definition set_completed_pomodoros_in_cycle (v : Z) (s : App) : App :=
  mkApp (heap s) (tasks s) (focus_time s) (short_break_time s) (long_break_time s)
        (long_break_interval s) (focus_end_media s) (break_end_media s)
        (current_time_left s) (is_running s) (current_state s)
        v (current_task_index s) (items s) (log s).

Definition set_current_task_index (v : option Z) (s : App) : App :=
  mkApp (heap s) (tasks s) (focus_time s) (short_break_time s) (long_break_time s)
        (long_break_interval s) (focus_end_media s) (break_end_media s)
        (current_time_left s) (is_running s) (current_state s)
        (completed_pomodoros_in_cycle s) v (items s) (log s).

Definition set_items (v : list Z) (s : App) : App :=
  mkApp (heap s) (tasks s) (focus_time s) (short_break_time s) (long_break_time s)
        (long_break_interval s) (focus_end_media s) (break_end_media s)
        (current_time_left s) (is_running s) (current_state s)
        (completed_pomodoros_in_cycle s) (current_task_index s) v (log s).

Definition set_log (v : list event) (s : App) : App :=
  mkApp (heap s) (tasks s) (focus_time s) (short_break_time s) (long_break_time s)
        (long_break_interval s) (focus_end_media s) (break_end_media s)
        (current_time_left s) (is_running s) (current_state s)
        (completed_pomodoros_in_cycle s) (current_task_index s) (items s) v.

Definition emit (e : event) (s : App) : App := set_log (log s ++ [e]) s.

(** [d[key] = v] on the dict at [l] *)
Definition store (l : loc) (t : Task) (s : App) : App :=
  set_heap (<[l := t]> (heap s)) s.

(** Reading a key of a slot's value: only a dict can be subscripted. *)
Definition deref (s : App) (v : pyval) : res (loc * Task) :=
  match v with
  | VInt _ => Raise TypeError
  | VDict l => match heap s !! l with
               | Some t => Ok (l, t)
               | None => Raise Unallocated
               end
  end.

Definition with_text (v : string) (t : Task) : Task :=
  mkTask v (estimated t) (completed t) (done t).
Definition with_estimated (v : Z) (t : Task) : Task :=
  mkTask (text t) v (completed t) (done t).
Definition with_completed (v : Z) (t : Task) : Task :=
  mkTask (text t) (estimated t) v (done t).
Definition with_done (v : bool) (t : Task) : Task :=
  mkTask (text t) (estimated t) (completed t) v.

(* ===================================================================== *)
(** ** The handlers of [PomodoroAppWithTodo] *)
(* ===================================================================== *)

(** [_save_data]: settings and tasks are dumped to the data file. *)
Definition _save_data (s : App) : App := emit SaveData s.

(** [_update_task_list_display]: the list widget is rebuilt, one item per
    task, the item of the task at position [i] carrying [i] as its
    UserRole datum.  This is the rebuild of a list whose slots are task
    dicts: for every slot the source makes a [TaskWidgetItem], which reads
    the slot with [.get] and raises [AttributeError] on an integer, so that
    on such a list the handlers that rebuild it stop there.  What is proved
    of a rebuilt list assumes [well_formed], defined below. *)
Definition _update_task_list_display (s : App) : App :=
  set_items (seqZ 0 (len (tasks s))) s.

(** [_update_ui_for_state]: besides restyling the window, it reloads the
    countdown with the duration of the current phase. *)
Definition _update_ui_for_state (s : App) : App :=
  match current_state s with
  | pomodoro => set_current_time_left (focus_time s) s
  | short_break => set_current_time_left (short_break_time s) s
  | long_break => set_current_time_left (long_break_time s) s
  end.

Definition _toggle_timer_off_if_running (s : App) : App :=
  if is_running s then set_is_running false (emit TimerStop s) else s.

Definition _toggle_timer (s : App) : App :=
  if is_running s then set_is_running false (emit TimerStop s)
  else set_is_running true (emit TimerStart s).

(** [_play_sound]: nothing is played when the sound file was not found at
    start-up (the media source is [None]). *)
Definition _play_sound (media_source : option media) (s : App) : App :=
  match media_source with
  | Some m => emit (Play m) s
  | None => s
  end.

(** The sound chosen by [_update_timer] and [_skip_current_phase]. *)
Definition sound_media (s : App) : option media :=
  match current_state s with
  | pomodoro => focus_end_media s
  | _ => break_end_media s
  end.

Definition _update_task_progress (s : App) : res App :=
  match current_task_index s with
  | None => Ok s
  | Some i =>
      if i <? len (tasks s) then
        v ← getitem (tasks s) i;
        '(l, task) ← deref s v;
        if done task then Ok s
        else
          let task := with_completed (completed task + 1) task in
          let s := store l task s in
          let s :=
            if completed task >=? estimated task then
              let task := with_done true task in
              let s := store l task s in
              let s := emit (Information "Task Completed!" (text task)) s in
              set_current_task_index None s
            else s in
          Ok (_save_data (_update_task_list_display s))
      else Ok s
  end.

Definition _advance_state_machine (s : App) : res App :=
  let s := _toggle_timer_off_if_running s in
  let previous_state := current_state s in
  s ← match previous_state with
      | pomodoro =>
          s ← _update_task_progress s;
          let s := set_completed_pomodoros_in_cycle
                     (completed_pomodoros_in_cycle s + 1) s in
          r ← mod_ (completed_pomodoros_in_cycle s) (long_break_interval s);
          if r =? 0 then Ok (set_current_state long_break s)
          else Ok (set_current_state short_break s)
      | _ =>
          let s := set_current_state pomodoro s in
          match previous_state with
          | long_break => Ok (set_completed_pomodoros_in_cycle 0 s)
          | _ => Ok s
          end
      end;
  Ok (_update_ui_for_state s).

Definition _skip_current_phase (s : App) : res App :=
  let s := _play_sound (sound_media s) s in
  _advance_state_machine s.

(** [_update_timer], the slot of the one-second [QTimer]. *)
Definition _update_timer (s : App) : res App :=
  if current_time_left s >? 0 then
    Ok (set_current_time_left (current_time_left s - 1) s)
  else
    let s := _play_sound (sound_media s) s in
    let s := emit TimerStop s in
    let s := set_is_running false s in
    _advance_state_machine s.

Definition _set_mode (mode : phase) (s : App) : App :=
  let s := _toggle_timer_off_if_running s in
  let s := set_current_state mode s in
  let s := match mode with
           | pomodoro => set_completed_pomodoros_in_cycle 0 s
           | _ => s
           end in
  _update_ui_for_state s.

(** [_task_item_clicked]: [data] is the UserRole datum of the clicked item.
    The label the source then sets reads [task['text']] at that position
    and is not modelled; it raises on a slot that holds an integer, so the
    handler is that of lists of task dicts. *)
Definition _task_item_clicked (data : Z) (s : App) : App :=
  set_current_task_index (Some data) s.

(** [_add_task]: [input] and [estimate] are what the line edit and the spin
    box hold when the handler runs.  The rebuild and the save that end it
    are those of a list of task dicts (see [_update_task_list_display]). *)
Definition _add_task (input : string) (estimate : Z) (s : App) : App :=
  let task_text := strip input in
  if negb (truthy task_text) then s
  else
    let l := length (heap s) in
    let s := set_heap (heap s ++ [mkTask task_text estimate 0 false]) s in
    let s := set_tasks (tasks s ++ [VDict l]) s in
    _save_data (_update_task_list_display s).

(** [_edit_selected_task]: [row] is the row of the item; [dialog] is [None]
    when the dialog is cancelled and otherwise holds the contents of its two
    fields, which [EditTaskDialog.get_data] returns with the text stripped. *)
Definition _edit_selected_task (row : Z) (dialog : option (string * Z))
    (s : App) : res App :=
  if negb ((0 <=? row) && (row <? len (tasks s))) then Ok s
  else
    v ← getitem (tasks s) row;
    '(l, task_data) ← deref s v;
    match dialog with
    | None => Ok s
    | Some (field_text, new_est) =>
        let new_text := strip field_text in
        if negb (truthy new_text) then
          Ok (emit (Warning "Invalid Input" "Task description cannot be empty.") s)
        else
          let task_data := with_text new_text task_data in
          let task_data := with_estimated new_est task_data in
          let task_data :=
            if done task_data && (completed task_data <? new_est)
            then with_done false task_data else task_data in
          Ok (_save_data (_update_task_list_display (store l task_data s)))
    end.

(** One round of the loop of [_delete_selected_tasks]. *)
Definition delete_row (s : App) (row : Z) : App :=
  if (0 <=? row) && (row <? len (tasks s)) then
    let s := if bool_decide (Some row = current_task_index s)
             then set_current_task_index None s else s in
    set_tasks (delete (Z.to_nat row) (tasks s)) s
  else s.

(** [_delete_selected_tasks]: [selected] are the rows of the selected items,
    [yes] the answer to the confirmation box. *)
Definition _delete_selected_tasks (selected : list Z) (yes : bool)
    (s : App) : App :=
  match selected with
  | [] => s
  | _ =>
      let s := emit (Question "Confirm Delete") s in
      if yes then
        let rows_to_delete := sorted_reverse selected in
        let s := foldl delete_row s rows_to_delete in
        _save_data (_update_task_list_display s)
      else s
  end.

(** [n] phase changes in a row, as when each phase runs out or is skipped. *)
Fixpoint advance_times (n : nat) (s : App) : res App :=
  match n with
  | O => Ok s
  | S n' => s' ← _advance_state_machine s; advance_times n' s'
  end.

(** ** [DraggableListWidget.dropEvent]

    [super().dropEvent] moves the dragged items inside the widget: [moved]
    is the order of the items after it.  The handler then reads the UserRole
    datum of every item, which [_update_task_list_display] set to the
    task's position, and refills the shared list [tasks_ref] with what it
    read.  [parent_saves] tells whether the widget's parent has a
    [_save_data] method. *)
Definition dropEvent (moved : list Z) (parent_saves : bool) (s : App) : App :=
  let s := set_items moved s in
  let new_tasks_order := map VInt (items s) in
  let s := set_tasks new_tasks_order s in
  if parent_saves then _save_data s else s.

(* ===================================================================== *)
(** ** Start-up state and well-formed states *)
(* ===================================================================== *)

(** The state left by [__init__] when [_load_data] read the task dicts
    [loaded] and the default settings (25, 5 and 15 minutes, a long break
    every 4 pomodoros), both sound files being present. *)
Definition init (loaded : list Task) : App :=
  {| heap := loaded;
     tasks := map VDict (seq 0 (length loaded));
     focus_time := 25 * 60;
     short_break_time := 5 * 60;
     long_break_time := 15 * 60;
     long_break_interval := 4;
     focus_end_media := Some focus_end_mp3;
     break_end_media := Some break_end_mp3;
     current_time_left := 25 * 60;
     is_running := false;
     current_state := pomodoro;
     completed_pomodoros_in_cycle := 0;
     current_task_index := None;
     items := seqZ 0 (len loaded);
     log := [] |}.

(** The configured duration of a phase. *)
Definition duration (s : App) (p : phase) : Z :=
  match p with
  | pomodoro => focus_time s
  | short_break => short_break_time s
  | long_break => long_break_time s
  end.

(** A slot that holds a task dict. *)
Definition is_task (h : list Task) (v : pyval) : bool :=
  match v with
  | VDict l => bool_decide (is_Some (h !! l))
  | VInt _ => false
  end.

(** Every slot of [self.tasks] holds a task dict, and the active index, when
    set, is the position an item was built for: not negative. *)
Definition well_formed (s : App) : bool :=
  forallb (is_task (heap s)) (tasks s)
  && match current_task_index s with
     | None => true
     | Some i => 0 <=? i
     end.

(** The task the active index refers to: the index is set, lies within the
    list, and the slot there holds a dict. *)
Definition referent (s : App) : option (loc * Task) :=
  match current_task_index s with
  | None => None
  | Some i =>
      if (0 <=? i) && (i <? len (tasks s)) then
        match tasks s !! Z.to_nat i with
        | Some (VDict l) =>
            match heap s !! l with
            | Some t => Some (l, t)
            | None => None
            end
        | _ => None
        end
      else None
  end.

(** The task record after one credited pomodoro. *)
Definition credited (t : Task) : Task :=
  let c := completed t + 1 in
  mkTask (text t) (estimated t) c (if c >=? estimated t then true else done t).

(** The slot the active index points at (a set index is never negative). *)
Definition active_slot (s : App) : option pyval :=
  match current_task_index s with
  | Some i => if 0 <=? i then tasks s !! Z.to_nat i else None
  | None => None
  end.



(* ===================================================================== *)
(** ** Readings of the specification that the code does not follow

    Each predicate below writes out a sentence of the specification
    literally, for one state and one input; it is refuted on a concrete
    state further down, next to the statement that does hold. *)
(* ===================================================================== *)


(** "the cycle counter resets to 0 immediately after entering" the long
    break. *)
Definition counter_reset_on_entry_as_stated (s : App) : Prop :=
  current_state s = pomodoro ->
  forall s', _advance_state_machine s = Ok s' ->
             current_state s' = long_break ->
             completed_pomodoros_in_cycle s' = 0.

(** "[reorder] ... a permutation of the existing tasks (by identity) ...
    reindex to the task's new position; if the referenced task identity
    cannot be found, clear the active index". *)
Definition reorder_as_stated (moved : list Z) (parent_saves : bool)
    (s : App) : Prop :=
  moved ≡ₚ items s ->
  let s' := dropEvent moved parent_saves s in
  tasks s' ≡ₚ tasks s /\
  forall v, active_slot s = Some v ->
            (v ∈ tasks s' -> active_slot s' = Some v) /\
            (v ∉ tasks s' -> current_task_index s' = None).


(** "[add_task] fails with [ValidationError] if [text] is empty after
    trimming", the error being "surfaced to the user via the notification
    sink, operation aborted with no state change". *)
Definition add_task_as_stated (input : string) (estimate : Z)
    (s : App) : Prop :=
  let s' := _add_task input estimate s in
  if truthy (strip input) then
    exists l, heap s !! l = None /\
              tasks s' = tasks s ++ [VDict l] /\
              heap s' !! l = Some (mkTask (strip input) estimate 0 false)
  else
    (exists shown title message,
        log s' = log s ++ shown /\ Warning title message ∈ shown) /\
    tasks s' = tasks s /\ heap s' = heap s.

(* ===================================================================== *)
(** ** Concrete states used below *)
(* ===================================================================== *)

(** Three tasks; the first one misses one pomodoro: estimated 3, completed 2. *)
Definition three_tasks : App :=
  init [mkTask "write report" 3 2 false;
        mkTask "review patch" 1 0 false;
        mkTask "plan sprint" 2 0 false].

(** The first task was clicked. *)
Definition first_active : App := _task_item_clicked 0 three_tasks.

(** The second task was clicked. *)
Definition second_active : App := _task_item_clicked 1 three_tasks.

(** One second before the focus phase runs out, timer started. *)
Definition last_second : App :=
  set_current_time_left 1 (_toggle_timer first_active).

(** The countdown shows zero and the timer still runs. *)
Definition at_zero : App :=
  set_current_time_left 0 (_toggle_timer first_active).

(** Three pomodoros of the cycle are done and the fourth is running. *)
Definition fourth_pomodoro : App :=
  set_completed_pomodoros_in_cycle 3 (_toggle_timer three_tasks).

(** The same with the first task active, which misses one pomodoro. *)
Definition fourth_pomodoro_active : App :=
  set_completed_pomodoros_in_cycle 3 (_toggle_timer first_active).

(** A finished task: estimated 3, completed 3, done. *)
Definition one_done : App := init [mkTask "write report" 3 3 true].

(** A stale index: the third task is active when the first one is deleted,
    which leaves two tasks and the index 2. *)
Definition stale_index : App :=
  _delete_selected_tasks [0] true (_task_item_clicked 2 three_tasks).

(* ===================================================================== *)
(** ** Further handlers, the settings and the data file *)
(* ===================================================================== *)

(** [_task_check_state_changed]: [row] is the row at which the list shows
    the widget whose check box was toggled; the loop over
    [enumerate(self.tasks)] finds it only when the list has such a
    position.  The handler does not rebuild the list widget. *)
Definition _task_check_state_changed (row : nat) (is_checked : bool)
    (s : App) : res App :=
  match tasks s !! row with
  | None => Ok s
  | Some v =>
      '(l, task) ← deref s v;
      if Bool.eqb (done task) is_checked then Ok s
      else
        let task := with_done is_checked task in
        let task :=
          if is_checked then with_completed (estimated task) task else task in
        Ok (_save_data (store l task s))
  end.

(** [n] credits in a row, one per focus phase that ends. *)
Fixpoint credits (n : nat) (s : App) : res App :=
  match n with
  | O => Ok s
  | S n' => s' ← _update_task_progress s; credits n' s'
  end.

(** [n] timeouts of the one-second timer in a row. *)
Fixpoint ticks (n : nat) (s : App) : res App :=
  match n with
  | O => Ok s
  | S n' => s' ← _update_timer s; ticks n' s'
  end.

(** Durations, countdown and cycle counter are not negative. *)
Definition timer_inv (s : App) : bool :=
  (0 <=? focus_time s) && (0 <=? short_break_time s)
  && (0 <=? long_break_time s) && (0 <=? current_time_left s)
  && (0 <=? completed_pomodoros_in_cycle s).

(** The states in which the handlers run without raising: a well-formed
    task list, sound timer values, and an interval that can divide. *)
Definition session_ok (s : App) : bool :=
  well_formed s && timer_inv s && negb (long_break_interval s =? 0).

(** The main window: the state above and the fields that only the settings
    and the data file use. *)
Record Window := mkWindow {
  app : App;
  focus_time_min : Z;
  short_break_time_min : Z;
  long_break_time_min : Z;
  dark_mode_enabled : bool
}.

Definition set_app (v : App) (w : Window) : Window :=
  mkWindow v (focus_time_min w) (short_break_time_min w)
           (long_break_time_min w) (dark_mode_enabled w).

(** The data file, as far as [_load_data] looks into it: a JSON object with
    two keys, each of which may be missing, the settings being integers and
    a boolean and the tasks a list of dicts with the four keys of a task.
    This is the schema [_save_data] writes.  Other JSON values (a top-level
    list, settings of other types, tasks that are not such dicts) are not
    files of this type: [_load_data] catches only a missing file and a
    decoding error, and start-up raises on them. *)
Record SettingsJson := mkSettingsJson {
  j_focus_time_min : option Z;
  j_short_break_time_min : option Z;
  j_long_break_time_min : option Z;
  j_long_break_interval : option Z;
  j_dark_mode_enabled : option bool
}.

Record DataJson := mkDataJson {
  j_settings : option SettingsJson;
  j_tasks : option (list Task)
}.

(** [d.get(key, default)] *)
Definition dict_get {A} (entry : option A) (default : A) : A :=
  match entry with
  | Some v => v
  | None => default
  end.

(** What [_load_data] assigns; [ld_saved] tells whether it called
    [_save_data]. *)
Record Loaded := mkLoaded {
  ld_tasks : list Task;
  ld_focus_time_min : Z;
  ld_short_break_time_min : Z;
  ld_long_break_time_min : Z;
  ld_long_break_interval : Z;
  ld_dark_mode_enabled : bool;
  ld_saved : bool
}.

(** [_load_data]: [file] is [None] when the file is missing or is not JSON. *)
Definition _load_data (file : option DataJson) : Loaded :=
  match file with
  | Some data =>
      let settings :=
        dict_get (j_settings data) (mkSettingsJson None None None None None) in
      mkLoaded (dict_get (j_tasks data) [])
               (dict_get (j_focus_time_min settings) 25)
               (dict_get (j_short_break_time_min settings) 5)
               (dict_get (j_long_break_time_min settings) 15)
               (dict_get (j_long_break_interval settings) 4)
               (dict_get (j_dark_mode_enabled settings) false)
               false
  | None => mkLoaded [] 25 5 15 4 false true
  end.

(** [__init__]: the dicts read from the file are new objects, in the order
    of the list; [focus_sound] and [break_sound] tell whether
    [_preload_sounds] found the two sound files. *)
Definition __init__ (file : option DataJson) (focus_sound break_sound : bool)
    : Window :=
  let ld := _load_data file in
  let s :=
    {| heap := ld_tasks ld;
       tasks := map VDict (seq 0 (length (ld_tasks ld)));
       focus_time := ld_focus_time_min ld * 60;
       short_break_time := ld_short_break_time_min ld * 60;
       long_break_time := ld_long_break_time_min ld * 60;
       long_break_interval := ld_long_break_interval ld;
       focus_end_media := if focus_sound then Some focus_end_mp3 else None;
       break_end_media := if break_sound then Some break_end_mp3 else None;
       current_time_left := ld_focus_time_min ld * 60;
       is_running := false;
       current_state := pomodoro;
       completed_pomodoros_in_cycle := 0;
       current_task_index := None;
       items := [];
       log := if ld_saved ld then [SaveData] else [] |} in
  let s := _update_ui_for_state s in
  let s := _update_task_list_display s in
  mkWindow s (ld_focus_time_min ld) (ld_short_break_time_min ld)
           (ld_long_break_time_min ld) (ld_dark_mode_enabled ld).

(** The value a slot is written as: [None] for a slot that holds no dict
    (such a list is outside [DataJson]). *)
Definition dump_slot (h : list Task) (v : pyval) : option Task :=
  match v with
  | VDict l => h !! l
  | VInt _ => None
  end.

(** What [_save_data] writes to the file. *)
Definition saved_data (w : Window) : option DataJson :=
  match mapM (dump_slot (heap (app w))) (tasks (app w)) with
  | Some ts =>
      Some (mkDataJson
              (Some (mkSettingsJson
                       (Some (focus_time_min w))
                       (Some (short_break_time_min w))
                       (Some (long_break_time_min w))
                       (Some (long_break_interval (app w)))
                       (Some (dark_mode_enabled w))))
              (Some ts))
  | None => None
  end.

(** [_toggle_dark_mode] *)
Definition _toggle_dark_mode (checked : bool) (w : Window) : Window :=
  let w := mkWindow (app w) (focus_time_min w) (short_break_time_min w)
                    (long_break_time_min w) checked in
  let w := set_app (_save_data (app w)) w in
  set_app (_update_ui_for_state (app w)) w.

(** The fields of the settings dialog when it is accepted: for the three
    line edits, what [int(text)] returns, [None] standing for a
    [ValueError]; for the spin box, its value. *)
Record SettingsFields := mkSettingsFields {
  focus_input : option Z;
  short_break_input : option Z;
  long_break_input : option Z;
  interval_input : Z
}.

(** [SettingsDialog.get_settings]: the tuple, or [None] after a warning. *)
Definition get_settings (d : SettingsFields)
    : option (Z * Z * Z * Z) * list event :=
  match focus_input d, short_break_input d, long_break_input d with
  | Some focus, Some short, Some long =>
      if (focus <=? 0) || (short <=? 0) || (long <=? 0) then
        (None, [Warning "Input Error" "All times must be positive integers!"])
      else (Some (focus, short, long, interval_input d), [])
  | _, _, _ =>
      (None, [Warning "Input Error" "Please enter valid numbers for times!"])
  end.

(** The inputs that [get_settings] lets through: three numbers, all
    positive. *)
Definition fields_valid (d : SettingsFields) : bool :=
  match focus_input d, short_break_input d, long_break_input d with
  | Some focus, Some short, Some long => (0 <? focus) && (0 <? short) && (0 <? long)
  | _, _, _ => false
  end.

(** A file with the defaults of [_load_data] written in for the keys that
    are missing. *)
Definition with_defaults (data : DataJson) : DataJson :=
  let settings :=
    dict_get (j_settings data) (mkSettingsJson None None None None None) in
  mkDataJson
    (Some (mkSettingsJson
             (Some (dict_get (j_focus_time_min settings) 25))
             (Some (dict_get (j_short_break_time_min settings) 5))
             (Some (dict_get (j_long_break_time_min settings) 15))
             (Some (dict_get (j_long_break_interval settings) 4))
             (Some (dict_get (j_dark_mode_enabled settings) false))))
    (Some (dict_get (j_tasks data) [])).

(** New durations and interval, in the assignments of
    [_open_settings_dialog]. *)
Definition set_timer_settings (focus short long interval : Z) (s : App) : App :=
  mkApp (heap s) (tasks s) (focus * 60) (short * 60) (long * 60)
        interval (focus_end_media s) (break_end_media s)
        (current_time_left s) (is_running s) (current_state s)
        (completed_pomodoros_in_cycle s) (current_task_index s) (items s) (log s).

(** [_open_settings_dialog]: [dialog] is [None] when the dialog is
    cancelled. *)
Definition _open_settings_dialog (dialog : option SettingsFields)
    (w : Window) : Window :=
  let w := set_app (_toggle_timer_off_if_running (app w)) w in
  match dialog with
  | None => w
  | Some d =>
      let '(new_settings, shown) := get_settings d in
      let w := set_app (set_log (log (app w) ++ shown) (app w)) w in
      match new_settings with
      | None => w
      | Some (new_focus, new_short, new_long, new_interval) =>
          let s := set_timer_settings new_focus new_short new_long
                                      new_interval (app w) in
          let s := set_completed_pomodoros_in_cycle 0 s in
          let s := set_current_state pomodoro s in
          let s := _update_ui_for_state s in
          let s := _save_data s in
          let s := emit (Information "Settings Saved"
                                     "New settings have been applied!") s in
          mkWindow s new_focus new_short new_long (dark_mode_enabled w)
      end
  end.

(** The seconds are the minutes times 60. *)
Definition minutes_agree (w : Window) : Prop :=
  focus_time (app w) = focus_time_min w * 60 /\
  short_break_time (app w) = short_break_time_min w * 60 /\
  long_break_time (app w) = long_break_time_min w * 60.

(** A window as [__init__] leaves it for the three tasks above. *)
Definition three_tasks_window : Window :=
  __init__ (Some (mkDataJson None
                    (Some [mkTask "write report" 3 2 false;
                           mkTask "review patch" 1 0 false;
                           mkTask "plan sprint" 2 0 false])))
           true true.

(* ===================================================================== *)
(** ** Lemmas on the primitives *)
(* ===================================================================== *)

Section Primitives.

Context {A : Type}.
Implicit Types (l : list A) (i : Z).

Lemma len_nonneg l : 0 <= len l.
Proof. unfold len. lia. Qed.

Lemma len_app l1 l2 : len (l1 ++ l2) = len l1 + len l2.
Proof. unfold len. rewrite length_app. lia. Qed.

Lemma getitem_lookup l i x :
  0 <= i -> l !! Z.to_nat i = Some x -> getitem l i = Ok x.
Proof.
  intros Hi Hx. unfold getitem.
  destruct (Z.ltb_spec i 0) as [?|_]; [lia|].
  destruct (Z.ltb_spec i 0) as [?|_]; [lia|].
  by rewrite Hx.
Qed.

Lemma lookup_in_range l i :
  0 <= i < len l -> exists x, l !! Z.to_nat i = Some x.
Proof.
  intros Hi. apply lookup_lt_is_Some_2. unfold len in Hi. lia.
Qed.

End Primitives.

Lemma mod_nonzero a b : b <> 0 -> mod_ a b = Ok (a mod b).
Proof.
  intros Hb. unfold mod_. destruct (Z.eqb_spec b 0); [done|reflexivity].
Qed.

Lemma truthy_false s : truthy s = false <-> s = EmptyString.
Proof. destruct s; simpl; split; intros; congruence. Qed.

Lemma truthy_true s : truthy s = true <-> s <> EmptyString.
Proof. destruct s; simpl; split; intros; congruence. Qed.

(** Slots that pass [is_task] dereference without raising. *)
Lemma deref_is_task s v :
  is_task (heap s) v = true -> exists l t, v = VDict l /\ heap s !! l = Some t /\ deref s v = Ok (l, t).
Proof.
  destruct v as [l|n]; simpl; [|discriminate].
  intros H. apply bool_decide_eq_true in H. destruct H as [t Ht].
  exists l, t. by rewrite Ht.
Qed.

Lemma well_formed_slot s i v :
  well_formed s = true -> tasks s !! i = Some v -> is_task (heap s) v = true.
Proof.
  unfold well_formed. intros H Hv.
  apply andb_true_iff in H as [H _].
  rewrite forallb_forall in H. apply H.
  apply list_elem_of_In. eapply list_elem_of_lookup_2; eauto.
Qed.

Lemma well_formed_index s i :
  well_formed s = true -> current_task_index s = Some i -> 0 <= i.
Proof.
  unfold well_formed. intros H Hi.
  apply andb_true_iff in H as [_ H]. rewrite Hi in H. lia.
Qed.

(* ===================================================================== *)
(** ** The countdown: [_update_timer] *)
(* ===================================================================== *)

(** C9. A tick with a positive countdown only takes one second off it: the
    phase, the running flag, the cycle counter, the task list, the task
    dicts and the active index are what they were, and nothing is logged
    (no save, no sound). *)
Theorem tick_frame (s : App) :
  0 < current_time_left s ->
  exists s', _update_timer s = Ok s' /\
    current_time_left s' = current_time_left s - 1 /\
    current_state s' = current_state s /\
    is_running s' = is_running s /\
    completed_pomodoros_in_cycle s' = completed_pomodoros_in_cycle s /\
    tasks s' = tasks s /\
    heap s' = heap s /\
    current_task_index s' = current_task_index s /\
    log s' = log s.
Proof.
  intros Hpos. unfold _update_timer.
  destruct (Z.gtb_spec (current_time_left s) 0) as [_|?]; [|lia].
  eexists. split; [reflexivity|]. simpl. repeat split.
Qed.

Lemma tick_frame_witness :
  exists s', _update_timer last_second = Ok s' /\
    current_time_left s' = current_time_left last_second - 1 /\
    current_state s' = current_state last_second /\
    is_running s' = is_running last_second /\
    completed_pomodoros_in_cycle s' = completed_pomodoros_in_cycle last_second /\
    tasks s' = tasks last_second /\
    heap s' = heap last_second /\
    current_task_index s' = current_task_index last_second /\
    log s' = log last_second.
Proof. apply (tick_frame last_second). reflexivity. Defined.

(* ===================================================================== *)
(** ** Crediting the active task: [_update_task_progress] *)
(* ===================================================================== *)

Lemma referent_inv (s : App) (l : loc) (t : Task) :
  referent s = Some (l, t) ->
  exists i, current_task_index s = Some i /\ 0 <= i < len (tasks s) /\
            tasks s !! Z.to_nat i = Some (VDict l) /\ heap s !! l = Some t.
Proof.
  unfold referent. destruct (current_task_index s) as [i|]; [|discriminate].
  destruct (Z.leb_spec 0 i); simpl; [|discriminate].
  destruct (Z.ltb_spec i (len (tasks s))); [|discriminate].
  destruct (tasks s !! Z.to_nat i) as [[l'|n]|] eqn:Hv; try discriminate.
  destruct (heap s !! l') as [t'|] eqn:Ht; [|discriminate].
  intros [= -> ->]. exists i. repeat split; auto.
Qed.

(** What a credit does when the index refers to an open task. *)
Lemma progress_open (s : App) (l : loc) (t : Task) :
  referent s = Some (l, t) -> done t = false ->
  _update_task_progress s =
    Ok (if completed t + 1 >=? estimated t then
          _save_data (_update_task_list_display
            (set_current_task_index None
              (emit (Information "Task Completed!" (text t))
                (store l (credited t) (store l (with_completed (completed t + 1) t) s)))))
        else
          _save_data (_update_task_list_display
            (store l (credited t) s))).
Proof.
  intros Href Hd. apply referent_inv in Href as (i & Hi & [H0 Hlen] & Hv & Ht).
  unfold _update_task_progress. rewrite Hi.
  destruct (Z.ltb_spec i (len (tasks s))); [|lia].
  rewrite (getitem_lookup _ _ _ H0 Hv). simpl. rewrite Ht. simpl.
  rewrite Hd. unfold credited, with_done, with_completed. simpl.
  destruct (completed t + 1 >=? estimated t); rewrite ?Hd; reflexivity.
Qed.

Lemma progress_done (s : App) (l : loc) (t : Task) :
  referent s = Some (l, t) -> done t = true -> _update_task_progress s = Ok s.
Proof.
  intros Href Hd. apply referent_inv in Href as (i & Hi & [H0 Hlen] & Hv & Ht).
  unfold _update_task_progress. rewrite Hi.
  destruct (Z.ltb_spec i (len (tasks s))); [|lia].
  rewrite (getitem_lookup _ _ _ H0 Hv). simpl. rewrite Ht. simpl.
  by rewrite Hd.
Qed.

Lemma progress_unset (s : App) :
  current_task_index s = None -> _update_task_progress s = Ok s.
Proof. intros H. unfold _update_task_progress. by rewrite H. Qed.

Lemma progress_out_of_bounds (s : App) (i : Z) :
  current_task_index s = Some i -> len (tasks s) <= i ->
  _update_task_progress s = Ok s.
Proof.
  intros Hi Hge. unfold _update_task_progress. rewrite Hi.
  destruct (Z.ltb_spec i (len (tasks s))); [lia|reflexivity].
Qed.

(** C10. With the active index set but at or past the end of the task
    list, a credit returns normally and leaves the whole state as it was:
    no task touched, nothing saved. *)
Theorem credit_stale_index_noop (s : App) (i : Z) :
  current_task_index s = Some i ->
  len (tasks s) <= i ->
  _update_task_progress s = Ok s.
Proof.
  intros Hi Hge. unfold _update_task_progress. rewrite Hi.
  destruct (Z.ltb_spec i (len (tasks s))) as [Hlt|_].
  - lia.
  - reflexivity.
Qed.

Lemma credit_stale_index_noop_witness :
  current_task_index stale_index = Some 2 /\
  len (tasks stale_index) = 2 /\
  _update_task_progress stale_index = Ok stale_index.
Proof.
  split; [reflexivity|]. split; [reflexivity|].
  apply (credit_stale_index_noop stale_index 2); [reflexivity|].
  vm_compute. discriminate.
Defined.

(** C2. A credit changes nothing (same dicts, same list, same index, nothing
    saved) when no task is active or when the active task is done.  On an
    open task it adds one to [completed], leaving text and estimate alone,
    and saves; when the new count reaches the estimate the task is moreover
    marked done, the "Task Completed!" box is shown for it and the active
    index is cleared, so that a credit issued right afterwards changes
    nothing. *)
Theorem credit_active_task_correct (s : App) :
  (current_task_index s = None -> _update_task_progress s = Ok s) /\
  (forall l t, referent s = Some (l, t) ->
     if done t then _update_task_progress s = Ok s
     else
       exists s' t',
         _update_task_progress s = Ok s' /\
         tasks s' = tasks s /\
         heap s' = <[l := t']> (heap s) /\
         text t' = text t /\ estimated t' = estimated t /\
         completed t' = completed t + 1 /\
         if completed t' >=? estimated t' then
           done t' = true /\
           log s' = log s ++ [Information "Task Completed!" (text t); SaveData] /\
           current_task_index s' = None /\
           _update_task_progress s' = Ok s'
         else
           done t' = false /\
           log s' = log s ++ [SaveData] /\
           current_task_index s' = current_task_index s).
Proof.
  split; [apply progress_unset|].
  intros l t Href. destruct (done t) eqn:Hd; [by eapply progress_done|].
  rewrite (progress_open s l t Href Hd).
  unfold credited. simpl.
  destruct (completed t + 1 >=? estimated t) eqn:Hge.
  - eexists; eexists. split; [reflexivity|]. simpl.
    rewrite list_insert_insert_eq.
    repeat split; try reflexivity.
    simpl. rewrite Hge.
    split; [reflexivity|]. split; [by rewrite <- app_assoc|].
    split; [reflexivity|]. by apply progress_unset.
  - eexists; eexists. split; [reflexivity|]. simpl.
    repeat split; try reflexivity.
    simpl. rewrite Hge. by repeat split.
Qed.

(** The specification's example: estimated 3, completed 2. *)
Lemma credit_active_task_correct_witness :
  exists s',
    _update_task_progress first_active = Ok s' /\
    heap s' !! 0%nat = Some (mkTask "write report" 3 3 true) /\
    current_task_index s' = None /\
    log s' = [Information "Task Completed!" "write report"; SaveData] /\
    _update_task_progress s' = Ok s'.
Proof.
  destruct (credit_active_task_correct first_active) as [_ H].
  specialize (H 0%nat (mkTask "write report" 3 2 false) eq_refl).
  simpl in H.
  destruct H as (s' & t' & Hs' & _ & Hheap & Htext & Hest & Hcompl & H).
  exists s'. split; [exact Hs'|].
  destruct t' as [tx e c d]. simpl in *. subst tx e c. simpl in H.
  destruct H as (-> & Hlog & Hidx & Hagain).
  rewrite Hheap. repeat split; assumption.
Defined.

(* ===================================================================== *)
(** ** Phase changes: [_advance_state_machine] *)
(* ===================================================================== *)

(** On well-formed states a credit never raises. *)
Lemma progress_total (s : App) :
  well_formed s = true -> exists s1, _update_task_progress s = Ok s1.
Proof.
  intros Hwf.
  destruct (current_task_index s) as [i|] eqn:Hi;
    [|eexists; by apply progress_unset].
  destruct (Z.lt_ge_cases i (len (tasks s))) as [Hlt|Hge];
    [|eexists; by eapply progress_out_of_bounds].
  pose proof (well_formed_index s i Hwf Hi) as H0.
  destruct (lookup_in_range (tasks s) i (conj H0 Hlt)) as [v Hv].
  destruct (deref_is_task s v (well_formed_slot s _ v Hwf Hv))
    as (l & t & -> & Ht & _).
  assert (referent s = Some (l, t)) as Href.
  { unfold referent. rewrite Hi.
    destruct (Z.leb_spec 0 i); [|lia].
    destruct (Z.ltb_spec i (len (tasks s))); [|lia].
    simpl. by rewrite Hv, Ht. }
  destruct (done t) eqn:Hd.
  - eexists. by eapply progress_done.
  - eexists. by eapply progress_open.
Qed.

(** A credit leaves the timer side of the state alone. *)
Lemma progress_timer_frame (s s1 : App) :
  _update_task_progress s = Ok s1 ->
  current_state s1 = current_state s /\
  is_running s1 = is_running s /\
  completed_pomodoros_in_cycle s1 = completed_pomodoros_in_cycle s /\
  long_break_interval s1 = long_break_interval s /\
  focus_time s1 = focus_time s /\
  short_break_time s1 = short_break_time s /\
  long_break_time s1 = long_break_time s.
Proof.
  unfold _update_task_progress.
  destruct (current_task_index s) as [i|]; [|by intros [= <-]].
  destruct (i <? len (tasks s)); [|by intros [= <-]].
  destruct (getitem (tasks s) i) as [v|e]; simpl; [|discriminate].
  destruct (deref s v) as [[l t]|e]; simpl; [|discriminate].
  destruct (done t); [by intros [= <-]|].
  destruct (_ >=? _); intros [= <-]; simpl; by repeat split.
Qed.

Lemma toggle_off_frame (s : App) :
  let s0 := _toggle_timer_off_if_running s in
  is_running s0 = false /\
  current_state s0 = current_state s /\
  completed_pomodoros_in_cycle s0 = completed_pomodoros_in_cycle s /\
  long_break_interval s0 = long_break_interval s /\
  heap s0 = heap s /\ tasks s0 = tasks s /\
  current_task_index s0 = current_task_index s.
Proof.
  unfold _toggle_timer_off_if_running.
  destruct (is_running s) eqn:Hr; simpl; by repeat split.
Qed.

Lemma toggle_off_well_formed (s : App) :
  well_formed (_toggle_timer_off_if_running s) = well_formed s.
Proof.
  unfold _toggle_timer_off_if_running. by destruct (is_running s).
Qed.

(** The result of leaving the focus phase, given the credited state. *)
Lemma advance_focus_eq (s s1 : App) :
  current_state s = pomodoro ->
  long_break_interval s <> 0 ->
  _update_task_progress (_toggle_timer_off_if_running s) = Ok s1 ->
  let c := completed_pomodoros_in_cycle s + 1 in
  _advance_state_machine s =
    Ok (_update_ui_for_state
          (set_current_state
             (if c mod long_break_interval s =? 0 then long_break else short_break)
             (set_completed_pomodoros_in_cycle c s1))).
Proof.
  intros Hph Hint Hs1.
  pose proof (toggle_off_frame s) as (Hr0 & Hp0 & Hc0 & Hi0 & _).
  pose proof (progress_timer_frame _ _ Hs1) as (Hp1 & Hr1 & Hc1 & Hi1 & _).
  unfold _advance_state_machine.
  rewrite Hp0, Hph. simpl. rewrite Hs1. simpl.
  rewrite Hc1, Hc0, Hi1, Hi0, (mod_nonzero _ _ Hint). simpl.
  by destruct (_ =? 0).
Qed.

(** The result of leaving a break. *)
Lemma advance_break_eq (s : App) :
  current_state s <> pomodoro ->
  _advance_state_machine s =
    Ok (_update_ui_for_state
          (match current_state s with
           | long_break => set_completed_pomodoros_in_cycle 0
           | _ => fun s => s
           end (set_current_state pomodoro (_toggle_timer_off_if_running s)))).
Proof.
  intros Hph.
  pose proof (toggle_off_frame s) as (_ & Hp0 & _).
  unfold _advance_state_machine. rewrite Hp0.
  by destruct (current_state s).
Qed.

Lemma referent_toggle_off (s : App) :
  referent (_toggle_timer_off_if_running s) = referent s.
Proof.
  unfold _toggle_timer_off_if_running. by destruct (is_running s).
Qed.

Lemma toggle_off_log (s : App) :
  log (_toggle_timer_off_if_running s)
    = log s ++ (if is_running s then [TimerStop] else []).
Proof.
  unfold _toggle_timer_off_if_running.
  destruct (is_running s); simpl; by rewrite ?app_nil_r.
Qed.

(** Without a task to refer to, a credit changes nothing. *)
Lemma progress_no_referent (s : App) :
  well_formed s = true -> referent s = None -> _update_task_progress s = Ok s.
Proof.
  intros Hwf Href.
  destruct (current_task_index s) as [i|] eqn:Hi; [|by apply progress_unset].
  destruct (Z.lt_ge_cases i (len (tasks s))) as [Hlt|Hge];
    [|by eapply progress_out_of_bounds].
  exfalso.
  pose proof (well_formed_index s i Hwf Hi) as H0.
  destruct (lookup_in_range (tasks s) i (conj H0 Hlt)) as [v Hv].
  destruct (deref_is_task s v (well_formed_slot s _ v Hwf Hv))
    as (l & t & -> & Ht & _).
  unfold referent in Href. rewrite Hi in Href.
  destruct (Z.leb_spec 0 i); [|lia].
  destruct (Z.ltb_spec i (len (tasks s))); [|lia].
  simpl in Href. by rewrite Hv, Ht in Href.
Qed.

(** C1. Leaving the focus phase.  The active task is credited: when the
    active index refers to a task that is not done, that task's
    [completed] goes up by one, it is marked done, announced and dropped as
    active task if this reaches its estimate, and the data is saved; when
    it refers to a done task or to none, tasks, index and log stay (this is
    what [_update_task_progress] leaves, after the timer is stopped).  The
    cycle counter goes up by one, the next phase is the long break exactly
    when the new count is a multiple of [long_break_interval] and the short
    break otherwise, the countdown is loaded with the duration of the new
    phase, and the timer is stopped. *)
Theorem advance_from_focus (s : App) :
  current_state s = pomodoro ->
  long_break_interval s <> 0 ->
  well_formed s = true ->
  exists s1 s',
    _update_task_progress (_toggle_timer_off_if_running s) = Ok s1 /\
    _advance_state_machine s = Ok s' /\
    heap s' = heap s1 /\ tasks s' = tasks s1 /\
    current_task_index s' = current_task_index s1 /\ log s' = log s1 /\
    tasks s' = tasks s /\
    match referent s with
    | Some (l, t) =>
        if done t then
          heap s' = heap s /\
          current_task_index s' = current_task_index s /\
          log s' = log s ++ (if is_running s then [TimerStop] else [])
        else
          heap s' =
            <[l := mkTask (text t) (estimated t) (completed t + 1)
                          (completed t + 1 >=? estimated t)]> (heap s) /\
          if completed t + 1 >=? estimated t then
            current_task_index s' = None /\
            log s' = log s ++ (if is_running s then [TimerStop] else [])
                       ++ [Information "Task Completed!" (text t); SaveData]
          else
            current_task_index s' = current_task_index s /\
            log s' = log s ++ (if is_running s then [TimerStop] else [])
                       ++ [SaveData]
    | None =>
        heap s' = heap s /\
        current_task_index s' = current_task_index s /\
        log s' = log s ++ (if is_running s then [TimerStop] else [])
    end /\
    completed_pomodoros_in_cycle s' = completed_pomodoros_in_cycle s + 1 /\
    (current_state s' = long_break <->
       (completed_pomodoros_in_cycle s + 1) mod long_break_interval s = 0) /\
    (current_state s' = short_break <->
       (completed_pomodoros_in_cycle s + 1) mod long_break_interval s <> 0) /\
    current_time_left s' = duration s' (current_state s') /\
    is_running s' = false.
Proof.
  intros Hph Hint Hwf.
  pose proof (toggle_off_frame s) as (Hr0 & _ & _ & _ & Hh0 & Ht0 & Hi0).
  pose proof (toggle_off_log s) as Hl0.
  pose proof (referent_toggle_off s) as Href0.
  assert (well_formed (_toggle_timer_off_if_running s) = true) as Hwf0
    by (by rewrite toggle_off_well_formed).
  set (s0 := _toggle_timer_off_if_running s) in *.
  assert (exists s1,
            _update_task_progress s0 = Ok s1 /\
            tasks s1 = tasks s /\
            match referent s with
            | Some (l, t) =>
                if done t then
                  heap s1 = heap s /\
                  current_task_index s1 = current_task_index s /\
                  log s1 = log s ++ (if is_running s then [TimerStop] else [])
                else
                  heap s1 =
                    <[l := mkTask (text t) (estimated t) (completed t + 1)
                                  (completed t + 1 >=? estimated t)]> (heap s) /\
                  if completed t + 1 >=? estimated t then
                    current_task_index s1 = None /\
                    log s1 = log s ++ (if is_running s then [TimerStop] else [])
                               ++ [Information "Task Completed!" (text t); SaveData]
                  else
                    current_task_index s1 = current_task_index s /\
                    log s1 = log s ++ (if is_running s then [TimerStop] else [])
                               ++ [SaveData]
            | None =>
                heap s1 = heap s /\
                current_task_index s1 = current_task_index s /\
                log s1 = log s ++ (if is_running s then [TimerStop] else [])
            end) as (s1 & Hs1 & Htasks & Hcredit).
  { destruct (referent s) as [[l t]|] eqn:Href.
    - destruct (done t) eqn:Hd.
      + exists s0. split; [by apply (progress_done s0 l t)|]. by repeat split.
      + rewrite (progress_open s0 l t Href0 Hd).
        unfold credited. rewrite Hd.
        destruct (completed t + 1 >=? estimated t) eqn:Hge.
        * eexists. split; [reflexivity|]. simpl.
          rewrite list_insert_insert_eq, Hh0, Hl0, <- !app_assoc.
          by repeat split.
        * eexists. split; [reflexivity|]. simpl.
          rewrite Hh0, Hl0, <- !app_assoc. by repeat split.
    - exists s0. split; [by apply progress_no_referent|]. by repeat split. }
  pose proof (progress_timer_frame _ _ Hs1) as (_ & Hr1 & _).
  exists s1. eexists. split; [exact Hs1|].
  split; [by apply advance_focus_eq|].
  assert (forall p c, heap (_update_ui_for_state (set_current_state p
                        (set_completed_pomodoros_in_cycle c s1))) = heap s1 /\
                      tasks (_update_ui_for_state (set_current_state p
                        (set_completed_pomodoros_in_cycle c s1))) = tasks s1 /\
                      current_task_index (_update_ui_for_state (set_current_state p
                        (set_completed_pomodoros_in_cycle c s1)))
                        = current_task_index s1 /\
                      log (_update_ui_for_state (set_current_state p
                        (set_completed_pomodoros_in_cycle c s1))) = log s1) as Hfr.
  { intros p c. by destruct p. }
  destruct (Hfr (if (completed_pomodoros_in_cycle s + 1) mod long_break_interval s =? 0
                 then long_break else short_break)
                (completed_pomodoros_in_cycle s + 1)) as (Hh & Ht & Hi & Hl).
  split; [exact Hh|]. split; [exact Ht|]. split; [exact Hi|]. split; [exact Hl|].
  split; [by rewrite Ht|].
  split.
  { rewrite Hh, Hi, Hl. exact Hcredit. }
  destruct (Z.eqb_spec ((completed_pomodoros_in_cycle s + 1)
                          mod long_break_interval s) 0) as [Hz|Hnz];
    simpl; repeat split; try congruence; try discriminate; auto.
Qed.

(** The fourth pomodoro of the cycle ends with the first task active at 2 of
    3: the task is completed and the long break entered. *)
Lemma advance_from_focus_witness :
  exists s1 s',
    _update_task_progress (_toggle_timer_off_if_running fourth_pomodoro_active)
      = Ok s1 /\
    _advance_state_machine fourth_pomodoro_active = Ok s' /\
    heap s' = heap s1 /\ tasks s' = tasks s1 /\
    current_task_index s' = current_task_index s1 /\ log s' = log s1 /\
    tasks s' = tasks fourth_pomodoro_active /\
    (heap s' =
       <[0%nat := mkTask "write report" 3 (2 + 1) true]>
         (heap fourth_pomodoro_active) /\
     current_task_index s' = None /\
     log s' = [TimerStart] ++ [TimerStop]
                ++ [Information "Task Completed!" "write report"; SaveData]) /\
    completed_pomodoros_in_cycle s' = 3 + 1 /\
    (current_state s' = long_break <-> (3 + 1) mod 4 = 0) /\
    (current_state s' = short_break <-> (3 + 1) mod 4 <> 0) /\
    current_time_left s' = duration s' (current_state s') /\
    is_running s' = false.
Proof.
  apply (advance_from_focus fourth_pomodoro_active);
    [reflexivity | discriminate | reflexivity].
Defined.

(** On well-formed states with a non-zero interval the phase change never
    raises, whatever the phase. *)
Lemma advance_total (s : App) :
  well_formed s = true -> long_break_interval s <> 0 ->
  exists s', _advance_state_machine s = Ok s'.
Proof.
  intros Hwf Hint. destruct (current_state s) eqn:Hph.
  - destruct (progress_total (_toggle_timer_off_if_running s)) as [s1 Hs1];
      [by rewrite toggle_off_well_formed|].
    eexists. by apply advance_focus_eq.
  - eexists. apply advance_break_eq. congruence.
  - eexists. apply advance_break_eq. congruence.
Qed.

(** C4, as the code has it.  When the focus phase is left for the long break
    the cycle counter holds the incremented count, a multiple of
    [long_break_interval] (the interval itself at the end of the first
    cycle), and it is the next phase change, which leaves the long break
    for the focus phase, that puts it back to 0. *)
Theorem long_break_entry_keeps_count (s : App) :
  current_state s = pomodoro ->
  well_formed s = true ->
  long_break_interval s <> 0 ->
  (completed_pomodoros_in_cycle s + 1) mod long_break_interval s = 0 ->
  exists s' s'',
    _advance_state_machine s = Ok s' /\
    current_state s' = long_break /\
    completed_pomodoros_in_cycle s' = completed_pomodoros_in_cycle s + 1 /\
    _advance_state_machine s' = Ok s'' /\
    current_state s'' = pomodoro /\
    completed_pomodoros_in_cycle s'' = 0.
Proof.
  intros Hph Hwf Hint Hmod.
  destruct (progress_total (_toggle_timer_off_if_running s)) as [s1 Hs1];
    [by rewrite toggle_off_well_formed|].
  pose proof (advance_focus_eq s s1 Hph Hint Hs1) as Hadv.
  simpl in Hadv. rewrite Hmod in Hadv. simpl in Hadv.
  eexists. eexists. split; [exact Hadv|].
  split; [reflexivity|]. split; [reflexivity|].
  split; [by apply advance_break_eq|].
  by split.
Qed.

Lemma long_break_entry_keeps_count_witness :
  exists s' s'',
    _advance_state_machine fourth_pomodoro = Ok s' /\
    current_state s' = long_break /\
    completed_pomodoros_in_cycle s' = 3 + 1 /\
    _advance_state_machine s' = Ok s'' /\
    current_state s'' = pomodoro /\
    completed_pomodoros_in_cycle s'' = 0.
Proof.
  apply (long_break_entry_keeps_count fourth_pomodoro);
    [reflexivity | reflexivity | discriminate | reflexivity].
Defined.

(** C4 as stated fails: with a long break every 4 pomodoros, the fourth
    focus completion enters the long break with the counter at 4. *)
Lemma counter_not_reset_on_entry :
  ~ counter_reset_on_entry_as_stated fourth_pomodoro.
Proof.
  intros H.
  specialize (H eq_refl _ eq_refl eq_refl).
  vm_compute in H. discriminate H.
Qed.




Example tick_at_one :
  exists s', _update_timer last_second = Ok s' /\
             current_time_left s' = 0 /\ is_running s' = true /\
             current_state s' = pomodoro /\ log s' = log last_second.
Proof. eexists. split; [reflexivity|]. by repeat split. Qed.

(* ===================================================================== *)
(** ** Editing and adding tasks *)
(* ===================================================================== *)

(** C7. Editing a done task (the row holds a task, the dialog is accepted
    with a text that is not blank): the task is reopened when the new
    estimate exceeds the completed count and stays done otherwise, in
    particular when the estimate is lowered below the completed count. *)
Theorem edit_done_task (s : App) (row : Z) (l : loc) (t : Task)
    (field_text : string) (new_est : Z) :
  0 <= row < len (tasks s) ->
  tasks s !! Z.to_nat row = Some (VDict l) ->
  heap s !! l = Some t ->
  done t = true ->
  strip field_text <> EmptyString ->
  exists s' t',
    _edit_selected_task row (Some (field_text, new_est)) s = Ok s' /\
    tasks s' = tasks s /\
    heap s' !! l = Some t' /\
    text t' = strip field_text /\
    estimated t' = new_est /\
    completed t' = completed t /\
    (completed t < new_est -> done t' = false) /\
    (new_est <= completed t -> done t' = true).
Proof.
  intros [H0 Hlen] Hv Ht Hd Htxt.
  unfold _edit_selected_task.
  destruct (Z.leb_spec 0 row); [|lia].
  destruct (Z.ltb_spec row (len (tasks s))); [|lia].
  simpl. rewrite (getitem_lookup _ _ _ H0 Hv). simpl. rewrite Ht. simpl.
  apply truthy_true in Htxt. rewrite Htxt. simpl. rewrite Hd. simpl.
  pose proof (lookup_lt_Some _ _ _ Ht) as Hl.
  destruct (Z.ltb_spec (completed t) new_est) as [Hlt|Hge].
  - eexists; eexists. split; [reflexivity|]. simpl.
    split; [reflexivity|].
    split; [by apply list_lookup_insert_eq|].
    simpl. repeat split; auto. lia.
  - eexists; eexists. split; [reflexivity|]. simpl.
    split; [reflexivity|].
    split; [by apply list_lookup_insert_eq|].
    simpl. repeat split; auto. lia.
Qed.

(** The specification's example: completed 3, estimated 3, new estimate 5. *)
Lemma edit_done_task_witness :
  exists s' t',
    _edit_selected_task 0 (Some ("write report", 5)) one_done = Ok s' /\
    tasks s' = tasks one_done /\
    heap s' !! 0%nat = Some t' /\
    text t' = strip "write report" /\
    estimated t' = 5 /\
    completed t' = 3 /\
    (3 < 5 -> done t' = false) /\
    (5 <= 3 -> done t' = true).
Proof.
  apply (edit_done_task one_done 0 0%nat (mkTask "write report" 3 3 true));
    [vm_compute; split; [discriminate | reflexivity]
    | reflexivity | reflexivity | reflexivity | vm_compute; discriminate].
Defined.

(** C8, as the code has it.  A text that is blank after stripping makes
    [_add_task] return at once: no message box, nothing saved, the state is
    the one before.  Otherwise, on a list whose slots hold task dicts, a new
    dict with the stripped text, the given estimate, [completed = 0] and
    [done = False] is appended, nothing else in the list or among the dicts
    changes, the list widget is rebuilt and the data is saved. *)
Theorem add_task_silent_on_blank (input : string) (estimate : Z) (s : App) :
  (strip input = EmptyString -> _add_task input estimate s = s) /\
  (strip input <> EmptyString ->
   well_formed s = true ->
     let s' := _add_task input estimate s in
     let l := length (heap s) in
     heap s !! l = None /\
     heap s' = heap s ++ [mkTask (strip input) estimate 0 false] /\
     heap s' !! l = Some (mkTask (strip input) estimate 0 false) /\
     tasks s' = tasks s ++ [VDict l] /\
     current_task_index s' = current_task_index s /\
     well_formed s' = true /\
     log s' = log s ++ [SaveData]).
Proof.
  split.
  - intros Htxt. unfold _add_task. apply truthy_false in Htxt. by rewrite Htxt.
  - intros Htxt Hwf.
    assert (well_formed (_add_task input estimate s) = true) as Hwf'.
    { unfold _add_task. destruct (truthy (strip input)); simpl; [|done].
      unfold well_formed in *. simpl.
      apply andb_true_iff in Hwf as [Hall Hidx].
      rewrite Hidx, andb_true_r, forallb_app. simpl.
      rewrite andb_true_r. apply andb_true_iff. split.
      - rewrite forallb_forall in *. intros v Hin. specialize (Hall v Hin).
        destruct v as [l|n]; simpl in *; [|done].
        apply bool_decide_eq_true in Hall. apply bool_decide_eq_true.
        destruct Hall as [t Ht]. exists t. by apply lookup_app_l_Some.
      - apply bool_decide_eq_true. apply lookup_lt_is_Some_2.
        rewrite length_app. simpl. lia. }
    revert Hwf'. unfold _add_task.
    apply truthy_true in Htxt. rewrite Htxt. simpl. intros Hwf'.
    split; [by apply lookup_ge_None_2|].
    split; [reflexivity|].
    split; [rewrite lookup_app_r by lia; by rewrite Nat.sub_diag|].
    split; [reflexivity|]. split; [reflexivity|].
    split; [exact Hwf'|reflexivity].
Qed.

Lemma add_task_silent_on_blank_witness :
  _add_task "   " 2 three_tasks = three_tasks /\
  let s' := _add_task " call bank " 2 three_tasks in
  heap three_tasks !! 3%nat = None /\
  heap s' = heap three_tasks ++ [mkTask "call bank" 2 0 false] /\
  heap s' !! 3%nat = Some (mkTask "call bank" 2 0 false) /\
  tasks s' = tasks three_tasks ++ [VDict 3%nat] /\
  current_task_index s' = current_task_index three_tasks /\
  well_formed s' = true /\
  log s' = log three_tasks ++ [SaveData].
Proof.
  split.
  - apply (add_task_silent_on_blank "   " 2 three_tasks). reflexivity.
  - apply (add_task_silent_on_blank " call bank " 2 three_tasks);
      [vm_compute; discriminate | reflexivity].
Defined.

(** C8 as stated fails: [add_task] with the empty text and the estimate 2
    shows no message box; the log stays empty. *)
Lemma add_task_blank_not_surfaced :
  ~ add_task_as_stated EmptyString 2 three_tasks.
Proof.
  intros H. destruct H as [(shown & title & message & Hlog & Hin) _].
  vm_compute in Hlog. subst shown. by apply elem_of_nil in Hin.
Qed.

(* ===================================================================== *)
(** ** Reordering by drag and drop *)
(* ===================================================================== *)

(** C5, as the code has it.  A drop leaves the active index at the position
    it held, neither moved along with the task nor cleared, and it creates
    or changes no task dict. *)
Theorem reorder_keeps_index_position (moved : list Z) (parent_saves : bool)
    (s : App) :
  current_task_index (dropEvent moved parent_saves s) = current_task_index s /\
  heap (dropEvent moved parent_saves s) = heap s.
Proof. unfold dropEvent. by destruct parent_saves. Qed.

(** C5 as stated fails: the first of three tasks is active and is dragged
    to the end; the active index is still 0. *)
Lemma reorder_does_not_reindex :
  ~ reorder_as_stated [1; 2; 0] false first_active.
Proof.
  intros H.
  destruct (H (Permutation_app_comm [1; 2] [0])) as [_ Hidx].
  destruct (Hidx (VDict 0%nat) eq_refl) as [_ Hclear].
  assert (current_task_index (dropEvent [1; 2; 0] false first_active) = None)
    as Hnone.
  { apply Hclear. vm_compute. intros Hin.
    repeat (apply elem_of_cons in Hin as [?|Hin]; [discriminate|]).
    by apply elem_of_nil in Hin. }
  vm_compute in Hnone. discriminate Hnone.
Qed.

Example reorder_first_to_last :
  let s' := dropEvent [1; 2; 0] false first_active in
  current_task_index s' = Some 0 /\ tasks s' = [VInt 1; VInt 2; VInt 0].
Proof. by split. Qed.

(* ===================================================================== *)
(** ** Deleting tasks *)
(* ===================================================================== *)

Section SortedReverse.

Lemma insert_desc_perm (x : Z) (l : list Z) : insert_desc x l ≡ₚ x :: l.
Proof.
  induction l as [|y l IH]; simpl; [done|].
  destruct (y <=? x); [done|].
  rewrite IH. apply Permutation_swap.
Qed.

Lemma sorted_reverse_perm (l : list Z) : sorted_reverse l ≡ₚ l.
Proof.
  induction l as [|x l IH]; simpl; [done|].
  unfold sorted_reverse in *. simpl. by rewrite insert_desc_perm, IH.
Qed.



End SortedReverse.

Section DropRows.

Context {A : Type}.
Implicit Types (l : list A) (rows : list Z) (i r : Z).








End DropRows.

Section DeleteLoop.

Implicit Types (s : App) (rows : list Z) (r a : Z).

Lemma delete_row_in_range s r :
  0 <= r < len (tasks s) ->
  delete_row s r =
    set_tasks (delete (Z.to_nat r) (tasks s))
      (if bool_decide (Some r = current_task_index s)
       then set_current_task_index None s else s).
Proof.
  intros [H0 Hlen]. unfold delete_row.
  destruct (Z.leb_spec 0 r); [|lia].
  destruct (Z.ltb_spec r (len (tasks s))); [|lia].
  simpl. by destruct (bool_decide _).
Qed.

Lemma delete_row_out_of_range s r :
  r < 0 \/ len (tasks s) <= r -> delete_row s r = s.
Proof.
  intros Hout. unfold delete_row.
  destruct (Z.leb_spec 0 r); simpl; [|done].
  destruct (Z.ltb_spec r (len (tasks s))); [lia|done].
Qed.


Lemma foldl_delete_row_heap rows s :
  heap (foldl delete_row s rows) = heap s.
Proof.
  revert s. induction rows as [|r rows IH]; intros s; simpl; [done|].
  rewrite IH. unfold delete_row.
  destruct (_ && _); [|done]. by destruct (bool_decide _).
Qed.



End DeleteLoop.




Example delete_first_of_three :
  let s' := _delete_selected_tasks [0] true second_active in
  tasks s' = [VDict 1%nat; VDict 2%nat] /\
  current_task_index s' = Some 1 /\
  active_slot second_active = Some (VDict 1%nat) /\
  active_slot s' = Some (VDict 2%nat).
Proof. by repeat split. Qed.

Example delete_active_clears :
  current_task_index (_delete_selected_tasks [2; 0] true first_active) = None.
Proof. reflexivity. Qed.

(* ===================================================================== *)
(** ** Well-formed states stay well-formed *)
(* ===================================================================== *)

Lemma init_well_formed (loaded : list Task) : well_formed (init loaded) = true.
Proof.
  unfold well_formed, init. simpl. rewrite andb_true_r.
  apply forallb_forall. intros v Hin.
  apply in_map_iff in Hin as (l & <- & Hl). apply in_seq in Hl. simpl.
  apply bool_decide_eq_true. apply lookup_lt_is_Some_2. lia.
Qed.

Lemma add_task_well_formed (input : string) (estimate : Z) (s : App) :
  well_formed s = true -> well_formed (_add_task input estimate s) = true.
Proof.
  unfold _add_task. destruct (truthy (strip input)); simpl; [|done].
  unfold well_formed. simpl. intros H.
  apply andb_true_iff in H as [Hall Hidx].
  rewrite Hidx, andb_true_r. rewrite forallb_app. simpl.
  rewrite andb_true_r. apply andb_true_iff. split.
  - rewrite forallb_forall in *. intros v Hin. specialize (Hall v Hin).
    destruct v as [l|n]; simpl in *; [|done].
    apply bool_decide_eq_true in Hall. apply bool_decide_eq_true.
    destruct Hall as [t Ht]. exists t. by apply lookup_app_l_Some.
  - apply bool_decide_eq_true. apply lookup_lt_is_Some_2.
    rewrite length_app. simpl. lia.
Qed.

Lemma item_clicked_well_formed (data : Z) (s : App) :
  0 <= data -> well_formed s = true ->
  well_formed (_task_item_clicked data s) = true.
Proof.
  unfold well_formed. simpl. intros H0 H.
  apply andb_true_iff in H as [Hall _]. rewrite Hall. simpl. lia.
Qed.

Lemma is_task_insert (h : list Task) (l : loc) (t : Task) (v : pyval) :
  is_task (<[l := t]> h) v = is_task h v.
Proof.
  destruct v as [l'|n]; simpl; [|done].
  apply bool_decide_ext. by rewrite !lookup_lt_is_Some, length_insert.
Qed.

(** Well-formedness looks at the dicts, the list and the index only. *)
Lemma well_formed_ext (s s' : App) :
  (forall v, is_task (heap s') v = is_task (heap s) v) ->
  tasks s' = tasks s ->
  (current_task_index s' = current_task_index s
   \/ current_task_index s' = None) ->
  well_formed s = true -> well_formed s' = true.
Proof.
  unfold well_formed. intros Hh Ht Hi H.
  apply andb_true_iff in H as [Hall Hidx].
  apply andb_true_iff. split.
  - rewrite Ht. rewrite forallb_forall in *. intros v Hin.
    rewrite Hh. by apply Hall.
  - by destruct Hi as [-> | ->].
Qed.

Lemma progress_well_formed (s s1 : App) :
  well_formed s = true -> _update_task_progress s = Ok s1 ->
  well_formed s1 = true.
Proof.
  intros Hwf. unfold _update_task_progress.
  destruct (current_task_index s) as [i|] eqn:Hi; [|by intros [= <-]].
  destruct (i <? len (tasks s)); [|by intros [= <-]].
  destruct (getitem (tasks s) i) as [v|e]; simpl; [|discriminate].
  destruct (deref s v) as [[l t]|e]; simpl; [|discriminate].
  destruct (done t); [by intros [= <-]|].
  destruct (_ >=? _); intros [= <-];
    (eapply well_formed_ext; [| | |exact Hwf]); simpl;
    try (intros v'; by rewrite ?is_task_insert); auto.
Qed.

Lemma advance_well_formed (s s' : App) :
  well_formed s = true -> _advance_state_machine s = Ok s' ->
  well_formed s' = true.
Proof.
  intros Hwf. rewrite <- toggle_off_well_formed in Hwf.
  unfold _advance_state_machine.
  destruct (current_state (_toggle_timer_off_if_running s)).
  - simpl.
    destruct (_update_task_progress (_toggle_timer_off_if_running s))
      as [s1|e] eqn:Hs1; simpl; [|discriminate].
    pose proof (progress_well_formed _ _ Hwf Hs1) as Hwf1.
    destruct (mod_ _ _) as [r|e]; simpl; [|discriminate].
    destruct (r =? 0); intros [= <-]; exact Hwf1.
  - simpl. intros [= <-]. exact Hwf.
  - simpl. intros [= <-]. exact Hwf.
Qed.

Lemma update_timer_well_formed (s s' : App) :
  well_formed s = true -> _update_timer s = Ok s' -> well_formed s' = true.
Proof.
  intros Hwf. unfold _update_timer.
  destruct (current_time_left s >? 0); [by intros [= <-]|].
  apply advance_well_formed.
  unfold _play_sound. by destruct (sound_media s).
Qed.

Lemma edit_well_formed (row : Z) (dialog : option (string * Z)) (s s' : App) :
  well_formed s = true -> _edit_selected_task row dialog s = Ok s' ->
  well_formed s' = true.
Proof.
  intros Hwf. unfold _edit_selected_task.
  destruct (negb _); [by intros [= <-]|].
  destruct (getitem (tasks s) row) as [v|e]; simpl; [|discriminate].
  destruct (deref s v) as [[l t]|e]; simpl; [|discriminate].
  destruct dialog as [[field_text new_est]|]; [|by intros [= <-]].
  destruct (negb _); intros [= <-]; [exact Hwf|].
  eapply well_formed_ext; [| | |exact Hwf]; simpl; auto.
  intros v'. by rewrite is_task_insert.
Qed.

Lemma delete_row_well_formed (s : App) (row : Z) :
  well_formed s = true -> well_formed (delete_row s row) = true.
Proof.
  unfold delete_row. destruct (_ && _); [|done].
  unfold well_formed. intros H.
  apply andb_true_iff in H as [Hall Hidx].
  apply andb_true_iff. split.
  - assert (heap (if bool_decide (Some row = current_task_index s)
                  then set_current_task_index None s else s) = heap s
            /\ tasks (if bool_decide (Some row = current_task_index s)
                      then set_current_task_index None s else s) = tasks s)
      as [Hh Ht] by (by destruct (bool_decide _)).
    simpl. rewrite Hh, Ht.
    rewrite forallb_forall in *. intros v Hin. apply Hall.
    apply list_elem_of_In. apply list_elem_of_In in Hin.
    by eapply list_elem_of_delete_inv.
  - simpl. by destruct (bool_decide _).
Qed.

Lemma delete_well_formed (selected : list Z) (yes : bool) (s : App) :
  well_formed s = true ->
  well_formed (_delete_selected_tasks selected yes s) = true.
Proof.
  intros Hwf. unfold _delete_selected_tasks.
  destruct selected as [|r rest]; [done|]. destruct yes; [|done].
  change (well_formed
            (foldl delete_row (emit (Question "Confirm Delete") s)
               (sorted_reverse (r :: rest))) = true).
  assert (well_formed (emit (Question "Confirm Delete") s) = true) as Hwf0
    by done.
  revert Hwf0. generalize (emit (Question "Confirm Delete") s).
  generalize (sorted_reverse (r :: rest)). clear.
  intros rows. induction rows as [|r rows IH]; intros s Hwf; simpl; [done|].
  apply IH. by apply delete_row_well_formed.
Qed.

(** A drop is what breaks it: the list then holds integers, and the next
    credit of an active task raises. *)
Example drop_then_credit_raises :
  let s' := dropEvent [1; 2; 0] false first_active in
  well_formed s' = false /\ _update_task_progress s' = Raise TypeError.
Proof. by split. Qed.

(* ===================================================================== *)
(** ** A whole cycle *)
(* ===================================================================== *)

Lemma advance_times_add (n m : nat) (s : App) :
  advance_times (n + m) s = s' ← advance_times n s; advance_times m s'.
Proof.
  revert s. induction n as [|n IH]; intros s; simpl; [done|].
  destruct (_advance_state_machine s) as [s1|e]; simpl; [apply IH|done].
Qed.

Lemma advance_interval_frame (s s' : App) :
  _advance_state_machine s = Ok s' ->
  long_break_interval s' = long_break_interval s.
Proof.
  pose proof (toggle_off_frame s) as (_ & _ & _ & Hi0 & _).
  unfold _advance_state_machine.
  destruct (current_state (_toggle_timer_off_if_running s)); simpl.
  - destruct (_update_task_progress (_toggle_timer_off_if_running s))
      as [s1|e] eqn:Hs1; simpl; [|discriminate].
    pose proof (progress_timer_frame _ _ Hs1) as (_ & _ & _ & Hi1 & _).
    destruct (mod_ _ _) as [r|e]; simpl; [|discriminate].
    destruct (r =? 0); intros [= <-]; simpl; congruence.
  - intros [= <-]. simpl. congruence.
  - intros [= <-]. simpl. congruence.
Qed.

(** A focus phase and the short break after it: back in the focus phase
    with one more pomodoro counted. *)
Lemma focus_and_short_break (s : App) :
  well_formed s = true ->
  current_state s = pomodoro ->
  long_break_interval s <> 0 ->
  (completed_pomodoros_in_cycle s + 1) mod long_break_interval s <> 0 ->
  exists s2,
    advance_times 2 s = Ok s2 /\
    well_formed s2 = true /\
    current_state s2 = pomodoro /\
    completed_pomodoros_in_cycle s2 = completed_pomodoros_in_cycle s + 1 /\
    long_break_interval s2 = long_break_interval s.
Proof.
  intros Hwf Hph Hint Hmod.
  destruct (progress_total (_toggle_timer_off_if_running s)) as [s1 Hs1];
    [by rewrite toggle_off_well_formed|].
  pose proof (advance_focus_eq s s1 Hph Hint Hs1) as Hadv. simpl in Hadv.
  apply Z.eqb_neq in Hmod. rewrite Hmod in Hadv.
  pose proof (advance_well_formed _ _ Hwf Hadv) as Hwf1.
  pose proof (advance_interval_frame _ _ Hadv) as Hint1.
  set (s' := _update_ui_for_state
               (set_current_state short_break
                  (set_completed_pomodoros_in_cycle
                     (completed_pomodoros_in_cycle s + 1) s1))) in *.
  assert (current_state s' = short_break) as Hph1 by done.
  assert (completed_pomodoros_in_cycle s' = completed_pomodoros_in_cycle s + 1)
    as Hc1 by done.
  pose proof (advance_break_eq s' ltac:(rewrite Hph1; discriminate)) as Hadv2.
  rewrite Hph1 in Hadv2.
  pose proof (advance_well_formed _ _ Hwf1 Hadv2) as Hwf2.
  pose proof (advance_interval_frame _ _ Hadv2) as Hint2.
  pose proof (toggle_off_frame s') as (_ & _ & Hc0 & _).
  eexists. split; [simpl; rewrite Hadv; simpl; rewrite Hadv2; reflexivity|].
  split; [exact Hwf2|]. split; [reflexivity|].
  split; [simpl; congruence|congruence].
Qed.

(** [k] such rounds, as long as the count stays below the interval. *)
Lemma focus_rounds (k : nat) (s : App) :
  well_formed s = true ->
  current_state s = pomodoro ->
  0 <= completed_pomodoros_in_cycle s ->
  completed_pomodoros_in_cycle s + Z.of_nat k < long_break_interval s ->
  exists s',
    advance_times (2 * k) s = Ok s' /\
    well_formed s' = true /\
    current_state s' = pomodoro /\
    completed_pomodoros_in_cycle s' = completed_pomodoros_in_cycle s + Z.of_nat k /\
    long_break_interval s' = long_break_interval s.
Proof.
  revert s. induction k as [|k IH]; intros s Hwf Hph H0 Hlt.
  { exists s. simpl. repeat split; auto. lia. }
  destruct (focus_and_short_break s Hwf Hph) as (s2 & Hs2 & Hwf2 & Hph2 & Hc2 & Hi2).
  { lia. }
  { rewrite Z.mod_small by lia. lia. }
  destruct (IH s2 Hwf2 Hph2) as (s' & Hs' & Hwf' & Hph' & Hc' & Hi');
    [lia | rewrite Hc2, Hi2; lia |].
  exists s'. split.
  - replace (2 * S k)%nat with (2 + 2 * k)%nat by lia.
    rewrite advance_times_add, Hs2. exact Hs'.
  - repeat split; auto; [lia | congruence].
Qed.

(** Starting a cycle with the counter at 0 and a long break every [N]
    pomodoros: after [N - 1] focus phases, each followed by its short break,
    the [N]-th focus completion enters the long break, with the counter
    at [N]. *)
Lemma nth_focus_completion_enters_long_break (s : App) :
  well_formed s = true ->
  current_state s = pomodoro ->
  completed_pomodoros_in_cycle s = 0 ->
  1 <= long_break_interval s ->
  exists s1 s2,
    advance_times (2 * Z.to_nat (long_break_interval s - 1)) s = Ok s1 /\
    current_state s1 = pomodoro /\
    completed_pomodoros_in_cycle s1 = long_break_interval s - 1 /\
    _advance_state_machine s1 = Ok s2 /\
    current_state s2 = long_break /\
    completed_pomodoros_in_cycle s2 = long_break_interval s.
Proof.
  intros Hwf Hph Hc HN.
  destruct (focus_rounds (Z.to_nat (long_break_interval s - 1)) s Hwf Hph)
    as (s1 & Hs1 & Hwf1 & Hph1 & Hc1 & Hi1); [lia | lia |].
  destruct (progress_total (_toggle_timer_off_if_running s1)) as [s1' Hs1'];
    [by rewrite toggle_off_well_formed|].
  pose proof (advance_focus_eq s1 s1' Hph1 ltac:(lia) Hs1') as Hadv.
  simpl in Hadv.
  replace (completed_pomodoros_in_cycle s1 + 1) with (long_break_interval s1)
    in Hadv by lia.
  rewrite Z_mod_same_full in Hadv. simpl in Hadv.
  exists s1. eexists. split; [exact Hs1|]. split; [exact Hph1|].
  split; [lia|]. split; [exact Hadv|]. split; [reflexivity|].
  simpl. congruence.
Qed.

Example default_cycle :
  (s1 ← advance_times 6 three_tasks;
   s2 ← _advance_state_machine s1;
   Ok (completed_pomodoros_in_cycle s1, current_state s2,
       completed_pomodoros_in_cycle s2))
  = Ok (3, long_break, 4).
Proof. vm_compute. reflexivity. Qed.

(* ===================================================================== *)
(** ** Start, pause, switch and skip *)
(* ===================================================================== *)

Lemma set_current_time_left_twice (u v : Z) (s : App) :
  set_current_time_left v (set_current_time_left u s) = set_current_time_left v s.
Proof. reflexivity. Qed.

Lemma set_current_time_left_same (s : App) :
  set_current_time_left (current_time_left s) s = s.
Proof. by destruct s. Qed.

(** X1. Start then pause, or pause then start, leaves the session as it
    was: only the timer was started and stopped. *)
Theorem toggle_timer_twice (s : App) :
  _toggle_timer (_toggle_timer s) =
    set_log (log s ++ (if is_running s then [TimerStop; TimerStart]
                       else [TimerStart; TimerStop])) s.
Proof.
  destruct s as [h ts f sb lb n fm bm t r p c i it lg].
  unfold _toggle_timer, emit, set_is_running, set_log. simpl.
  destruct r; simpl; by rewrite <- app_assoc.
Qed.

(** X2. Switching to a phase by hand stops the timer, enters the phase with
    its full duration, puts the cycle counter back to 0 when the phase is
    the focus phase and leaves it alone otherwise; it credits no task,
    plays no sound and saves nothing. *)
Theorem set_mode_effect (mode : phase) (s : App) :
  let s' := _set_mode mode s in
  current_state s' = mode /\
  current_time_left s' = duration s mode /\
  is_running s' = false /\
  completed_pomodoros_in_cycle s' =
    match mode with
    | pomodoro => 0
    | _ => completed_pomodoros_in_cycle s
    end /\
  heap s' = heap s /\ tasks s' = tasks s /\
  current_task_index s' = current_task_index s /\
  log s' = log s ++ (if is_running s then [TimerStop] else []).
Proof.
  destruct s as [h ts f sb lb n fm bm t r p c i it lg].
  unfold _set_mode, _toggle_timer_off_if_running. simpl.
  destruct r, mode; simpl; rewrite ?app_nil_r; by repeat split.
Qed.

(** A tick that finds the countdown at 0, the timer running. *)
Lemma tick_at_zero_eq (s : App) :
  is_running s = true ->
  current_time_left s <= 0 ->
  _update_timer s = _skip_current_phase s.
Proof.
  intros Hrun Hz. unfold _update_timer, _skip_current_phase.
  destruct (Z.gtb_spec (current_time_left s) 0) as [?|_]; [lia|].
  unfold _advance_state_machine at 2.
  assert (_toggle_timer_off_if_running (_play_sound (sound_media s) s) =
          set_is_running false (emit TimerStop (_play_sound (sound_media s) s)))
    as ->.
  { unfold _toggle_timer_off_if_running, _play_sound.
    destruct (sound_media s); simpl; by rewrite Hrun. }
  unfold _advance_state_machine. reflexivity.
Qed.

Lemma progress_ignores_countdown (t : Z) (s : App) :
  _update_task_progress (set_current_time_left t s) =
    s' ← _update_task_progress s; Ok (set_current_time_left t s').
Proof.
  unfold _update_task_progress. simpl.
  destruct (current_task_index s) as [i|]; [|done].
  destruct (i <? len (tasks s)); [|done].
  destruct (getitem (tasks s) i) as [v|e]; simpl; [|done].
  unfold deref. simpl.
  destruct v as [l|n]; simpl; [|done].
  destruct (heap s !! l) as [task|]; simpl; [|done].
  destruct (done task); [done|].
  by destruct (_ >=? _).
Qed.

Lemma advance_ignores_countdown (t : Z) (s : App) :
  _advance_state_machine (set_current_time_left t s) = _advance_state_machine s.
Proof.
  unfold _advance_state_machine.
  assert (_toggle_timer_off_if_running (set_current_time_left t s) =
          set_current_time_left t (_toggle_timer_off_if_running s)) as ->.
  { unfold _toggle_timer_off_if_running. simpl. by destruct (is_running s). }
  generalize (_toggle_timer_off_if_running s). clear s. intros s.
  simpl. destruct (current_state s) eqn:Hph; simpl.
  - rewrite progress_ignores_countdown.
    destruct (_update_task_progress s) as [s1|e]; simpl; [|done].
    destruct (mod_ _ _) as [r|e]; simpl; [|done].
    by destruct (r =? 0).
  - reflexivity.
  - reflexivity.
Qed.

Lemma skip_countdown_eq (t : Z) (s : App) :
  _skip_current_phase (set_current_time_left t s) = _skip_current_phase s.
Proof.
  unfold _skip_current_phase.
  assert (_play_sound (sound_media (set_current_time_left t s))
                      (set_current_time_left t s) =
          set_current_time_left t (_play_sound (sound_media s) s)) as ->.
  { unfold _play_sound, sound_media. simpl.
    by destruct (current_state s), (focus_end_media s), (break_end_media s). }
  apply advance_ignores_countdown.
Qed.

Lemma ticks_snoc (n : nat) (s : App) :
  ticks (S n) s = s' ← ticks n s; _update_timer s'.
Proof.
  revert s. induction n as [|n IH]; intros s.
  - simpl. by destruct (_update_timer s).
  - change (ticks (S (S n)) s) with (s' ← _update_timer s; ticks (S n) s').
    change (ticks (S n) s) with (s' ← _update_timer s; ticks n s') at 1.
    destruct (_update_timer s) as [s1|e]; simpl; [apply IH|done].
Qed.

Lemma ticks_down (n : nat) (s : App) :
  Z.of_nat n <= current_time_left s ->
  ticks n s = Ok (set_current_time_left (current_time_left s - Z.of_nat n) s).
Proof.
  revert s. induction n as [|n IH]; intros s Hn.
  - simpl. by rewrite Z.sub_0_r, set_current_time_left_same.
  - simpl. unfold _update_timer at 1.
    destruct (Z.gtb_spec (current_time_left s) 0) as [_|?]; [|lia].
    simpl. rewrite IH by (simpl; lia). simpl.
    rewrite set_current_time_left_twice.
    assert (current_time_left s - 1 - Z.of_nat n
            = current_time_left s - Z.pos (Pos.of_succ_nat n)) as -> by lia.
    reflexivity.
Qed.

(** X3. When the timer runs and the countdown is at 0, the next tick does
    what the skip button does: same sound, same phase change, same log. *)
Theorem expiry_is_skip (s : App) :
  is_running s = true ->
  current_time_left s <= 0 ->
  _update_timer s = _skip_current_phase s.
Proof. intros Hrun Hz. by apply tick_at_zero_eq. Qed.

Lemma expiry_is_skip_witness :
  _update_timer at_zero = _skip_current_phase at_zero.
Proof. apply (expiry_is_skip at_zero); [reflexivity | vm_compute; discriminate]. Defined.

(** X4. What the skip button does is the same whatever the countdown
    shows. *)
Theorem skip_ignores_countdown (t : Z) (s : App) :
  _skip_current_phase (set_current_time_left t s) = _skip_current_phase s.
Proof. apply skip_countdown_eq. Qed.

(** X5. While the countdown lasts, [n] ticks take [n] seconds off it and
    change nothing else. *)
Theorem ticks_count_down (n : nat) (s : App) :
  Z.of_nat n <= current_time_left s ->
  ticks n s = Ok (set_current_time_left (current_time_left s - Z.of_nat n) s).
Proof. apply ticks_down. Qed.

Lemma ticks_count_down_witness :
  ticks 1500 three_tasks = Ok (set_current_time_left (1500 - 1500) three_tasks).
Proof. apply (ticks_count_down 1500 three_tasks). vm_compute. discriminate. Defined.

(** X6. A running timer that is left alone ends its phase on the tick after
    the one that brings the countdown to 0, and ends it as the skip button
    would have. *)
Theorem run_out_is_skip (s : App) :
  is_running s = true ->
  0 <= current_time_left s ->
  ticks (S (Z.to_nat (current_time_left s))) s = _skip_current_phase s.
Proof.
  intros Hrun Hpos. rewrite ticks_snoc.
  rewrite ticks_down by lia. simpl.
  rewrite Z2Nat.id, Z.sub_diag by lia.
  rewrite tick_at_zero_eq by (simpl; done || lia).
  apply skip_countdown_eq.
Qed.

Lemma run_out_is_skip_witness :
  ticks (S (Z.to_nat 1)) last_second = _skip_current_phase last_second.
Proof.
  apply (run_out_is_skip last_second); [reflexivity | vm_compute; discriminate].
Defined.

(* ===================================================================== *)
(** ** What every timer handler keeps *)
(* ===================================================================== *)

Lemma timer_inv_spec (s : App) :
  timer_inv s = true <->
  0 <= focus_time s /\ 0 <= short_break_time s /\ 0 <= long_break_time s /\
  0 <= current_time_left s /\ 0 <= completed_pomodoros_in_cycle s.
Proof. unfold timer_inv. rewrite !andb_true_iff, !Z.leb_le. tauto. Qed.

Lemma session_ok_spec (s : App) :
  session_ok s = true <->
  well_formed s = true /\ timer_inv s = true /\ long_break_interval s <> 0.
Proof.
  unfold session_ok. rewrite !andb_true_iff, negb_true_iff, Z.eqb_neq. tauto.
Qed.

Lemma timer_inv_advance (s s' : App) :
  timer_inv s = true -> _advance_state_machine s = Ok s' -> timer_inv s' = true.
Proof.
  rewrite !timer_inv_spec. intros (Hf & Hsb & Hlb & Ht & Hc).
  unfold _advance_state_machine.
  assert (focus_time (_toggle_timer_off_if_running s) = focus_time s /\
          short_break_time (_toggle_timer_off_if_running s) = short_break_time s /\
          long_break_time (_toggle_timer_off_if_running s) = long_break_time s /\
          completed_pomodoros_in_cycle (_toggle_timer_off_if_running s)
            = completed_pomodoros_in_cycle s) as (Hf0 & Hsb0 & Hlb0 & Hc0).
  { unfold _toggle_timer_off_if_running. by destruct (is_running s). }
  destruct (current_state (_toggle_timer_off_if_running s)); simpl.
  - destruct (_update_task_progress (_toggle_timer_off_if_running s))
      as [s1|e] eqn:Hs1; simpl; [|discriminate].
    pose proof (progress_timer_frame _ _ Hs1) as (_ & _ & Hc1 & _ & Hf1 & Hsb1 & Hlb1).
    destruct (mod_ _ _) as [r|e]; simpl; [|discriminate].
    destruct (r =? 0); intros [= <-]; simpl; repeat split; lia.
  - intros [= <-]. simpl. repeat split; lia.
  - intros [= <-]. simpl. repeat split; lia.
Qed.

Lemma session_ok_advance (s : App) :
  session_ok s = true ->
  exists s', _advance_state_machine s = Ok s' /\ session_ok s' = true.
Proof.
  rewrite session_ok_spec. intros (Hwf & Hti & Hint).
  destruct (advance_total s Hwf Hint) as [s' Hs'].
  exists s'. split; [exact Hs'|]. rewrite session_ok_spec.
  split; [by eapply advance_well_formed|].
  split; [by eapply timer_inv_advance|].
  by rewrite (advance_interval_frame _ _ Hs').
Qed.

Lemma session_ok_play_sound (m : option media) (s : App) :
  session_ok (_play_sound m s) = session_ok s.
Proof. by destruct m. Qed.

Lemma session_ok_skip (s : App) :
  session_ok s = true ->
  exists s', _skip_current_phase s = Ok s' /\ session_ok s' = true.
Proof.
  intros Hok. unfold _skip_current_phase.
  apply session_ok_advance. by rewrite session_ok_play_sound.
Qed.

Lemma session_ok_tick (s : App) :
  session_ok s = true ->
  exists s', _update_timer s = Ok s' /\ session_ok s' = true.
Proof.
  intros Hok. unfold _update_timer.
  destruct (Z.gtb_spec (current_time_left s) 0) as [Hpos|Hz].
  - eexists. split; [reflexivity|].
    apply session_ok_spec in Hok as (Hwf & Hti & Hint).
    apply session_ok_spec. split; [exact Hwf|]. split; [|exact Hint].
    apply timer_inv_spec in Hti. apply timer_inv_spec. simpl. lia.
  - apply session_ok_advance.
    change (session_ok (_play_sound (sound_media s) s) = true).
    by rewrite session_ok_play_sound.
Qed.

(** X7. In a state with a well-formed task list, non-negative durations,
    countdown and counter, and a non-zero interval, a tick, a skip and a
    phase change return without raising and lead to such a state again;
    so do a switch of mode and start/pause. *)
Theorem timer_handlers_keep_session_ok (s : App) :
  session_ok s = true ->
  (exists s', _update_timer s = Ok s' /\ session_ok s' = true) /\
  (exists s', _skip_current_phase s = Ok s' /\ session_ok s' = true) /\
  (exists s', _advance_state_machine s = Ok s' /\ session_ok s' = true) /\
  (forall mode, session_ok (_set_mode mode s) = true) /\
  session_ok (_toggle_timer s) = true.
Proof.
  intros Hok.
  split; [by apply session_ok_tick|].
  split; [by apply session_ok_skip|].
  split; [by apply session_ok_advance|].
  apply session_ok_spec in Hok as (Hwf & Hti & Hint).
  apply timer_inv_spec in Hti as (Hf & Hsb & Hlb & Ht & Hc).
  split.
  - intros mode. apply session_ok_spec.
    unfold _set_mode, _toggle_timer_off_if_running.
    destruct (is_running s), mode; simpl;
      (split; [exact Hwf|]); (split; [|exact Hint]);
      apply timer_inv_spec; simpl; repeat split; lia.
  - apply session_ok_spec. unfold _toggle_timer.
    destruct (is_running s); simpl;
      (split; [exact Hwf|]); (split; [|exact Hint]);
      apply timer_inv_spec; simpl; repeat split; lia.
Qed.

Lemma timer_handlers_keep_session_ok_witness :
  (exists s', _update_timer at_zero = Ok s' /\ session_ok s' = true) /\
  (exists s', _skip_current_phase at_zero = Ok s' /\ session_ok s' = true) /\
  (exists s', _advance_state_machine at_zero = Ok s' /\ session_ok s' = true) /\
  (forall mode, session_ok (_set_mode mode at_zero) = true) /\
  session_ok (_toggle_timer at_zero) = true.
Proof. apply (timer_handlers_keep_session_ok at_zero). reflexivity. Defined.

(** X8. From such a state any number of ticks in a row return without
    raising. *)
Theorem ticks_never_raise (n : nat) (s : App) :
  session_ok s = true ->
  exists s', ticks n s = Ok s' /\ session_ok s' = true.
Proof.
  revert s. induction n as [|n IH]; intros s Hok.
  - exists s. by split.
  - destruct (session_ok_tick s Hok) as (s1 & Hs1 & Hok1).
    destruct (IH s1 Hok1) as (s' & Hs' & Hok').
    exists s'. split; [|exact Hok']. simpl. by rewrite Hs1.
Qed.

Lemma ticks_never_raise_witness :
  exists s', ticks 3 last_second = Ok s' /\ session_ok s' = true.
Proof. apply (ticks_never_raise 3 last_second). reflexivity. Defined.

Lemma advance_zero_interval (s : App) :
  well_formed s = true ->
  current_state s = pomodoro ->
  long_break_interval s = 0 ->
  _advance_state_machine s = Raise ZeroDivisionError.
Proof.
  intros Hwf Hph Hint.
  pose proof (toggle_off_frame s) as (_ & Hp0 & _ & Hi0 & _).
  destruct (progress_total (_toggle_timer_off_if_running s)) as [s1 Hs1];
    [by rewrite toggle_off_well_formed|].
  pose proof (progress_timer_frame _ _ Hs1) as (_ & _ & _ & Hi1 & _).
  unfold _advance_state_machine. rewrite Hp0, Hph. simpl.
  rewrite Hs1. simpl. unfold mod_. by rewrite Hi1, Hi0, Hint.
Qed.

(** X9. With [long_break_interval] at 0 leaving the focus phase raises
    [ZeroDivisionError]: the phase change divides by the interval without
    checking it. *)
Theorem zero_interval_raises (s : App) :
  well_formed s = true ->
  current_state s = pomodoro ->
  long_break_interval s = 0 ->
  _advance_state_machine s = Raise ZeroDivisionError.
Proof. intros Hwf Hph Hint. by apply advance_zero_interval. Qed.

Lemma zero_interval_raises_witness :
  _advance_state_machine
    (set_timer_settings 25 5 15 0 three_tasks) = Raise ZeroDivisionError.
Proof.
  apply (zero_interval_raises (set_timer_settings 25 5 15 0 three_tasks));
    reflexivity.
Defined.

(** X10. A whole cycle.  From the focus phase with the counter at 0 and a
    long break every [N >= 1] pomodoros: [N - 1] focus phases, each with
    its short break, lead to the focus phase with the counter at [N - 1];
    the next phase change enters the long break with the counter at [N];
    the one after it is back in the focus phase with the counter at 0. *)
Theorem full_cycle (s : App) :
  well_formed s = true ->
  current_state s = pomodoro ->
  completed_pomodoros_in_cycle s = 0 ->
  1 <= long_break_interval s ->
  exists s1 s2 s3,
    advance_times (2 * Z.to_nat (long_break_interval s - 1)) s = Ok s1 /\
    current_state s1 = pomodoro /\
    completed_pomodoros_in_cycle s1 = long_break_interval s - 1 /\
    _advance_state_machine s1 = Ok s2 /\
    current_state s2 = long_break /\
    completed_pomodoros_in_cycle s2 = long_break_interval s /\
    _advance_state_machine s2 = Ok s3 /\
    current_state s3 = pomodoro /\
    completed_pomodoros_in_cycle s3 = 0 /\
    advance_times (2 * Z.to_nat (long_break_interval s)) s = Ok s3.
Proof.
  intros Hwf Hph Hc HN.
  destruct (focus_rounds (Z.to_nat (long_break_interval s - 1)) s Hwf Hph)
    as (s1 & Hs1 & Hwf1 & Hph1 & Hc1 & Hi1); [lia | lia |].
  destruct (progress_total (_toggle_timer_off_if_running s1)) as [s1' Hs1'];
    [by rewrite toggle_off_well_formed|].
  pose proof (advance_focus_eq s1 s1' Hph1 ltac:(lia) Hs1') as Hadv.
  simpl in Hadv.
  replace (completed_pomodoros_in_cycle s1 + 1) with (long_break_interval s1)
    in Hadv by lia.
  rewrite Z_mod_same_full in Hadv. simpl in Hadv.
  set (s2 := _update_ui_for_state
               (set_current_state long_break
                  (set_completed_pomodoros_in_cycle (long_break_interval s1) s1')))
    in *.
  assert (current_state s2 = long_break) as Hph2 by done.
  pose proof (advance_break_eq s2 ltac:(rewrite Hph2; discriminate)) as Hadv2.
  rewrite Hph2 in Hadv2.
  exists s1, s2. eexists.
  split; [exact Hs1|]. split; [exact Hph1|]. split; [lia|].
  split; [exact Hadv|]. split; [exact Hph2|].
  split; [simpl; congruence|].
  split; [exact Hadv2|]. split; [reflexivity|]. split; [reflexivity|].
  replace (2 * Z.to_nat (long_break_interval s))%nat
    with (2 * Z.to_nat (long_break_interval s - 1) + 2)%nat by lia.
  rewrite advance_times_add, Hs1. simpl.
  rewrite Hadv. simpl. by rewrite Hadv2.
Qed.

Lemma full_cycle_witness :
  exists s1 s2 s3,
    advance_times (2 * Z.to_nat (4 - 1)) three_tasks = Ok s1 /\
    current_state s1 = pomodoro /\
    completed_pomodoros_in_cycle s1 = 4 - 1 /\
    _advance_state_machine s1 = Ok s2 /\
    current_state s2 = long_break /\
    completed_pomodoros_in_cycle s2 = 4 /\
    _advance_state_machine s2 = Ok s3 /\
    current_state s3 = pomodoro /\
    completed_pomodoros_in_cycle s3 = 0 /\
    advance_times (2 * Z.to_nat 4) three_tasks = Ok s3.
Proof.
  apply (full_cycle three_tasks);
    [reflexivity | reflexivity | reflexivity | vm_compute; discriminate].
Defined.

(* ===================================================================== *)
(** ** The task handlers on well-formed lists *)
(* ===================================================================== *)

(** The handlers that rebuild the list widget make a [TaskWidgetItem] for
    every slot, which reads the slot as a dict; [_update_task_list_display]
    above is its effect on a list whose slots are dicts.  The properties of
    a rebuilt list are therefore stated for well-formed lists; after a drop
    only what a handler does before it rebuilds the list is stated. *)

Lemma slot_is_task (s : App) (i : nat) (v : pyval) :
  well_formed s = true -> tasks s !! i = Some v ->
  exists l t, v = VDict l /\ heap s !! l = Some t /\ deref s v = Ok (l, t).
Proof.
  intros Hwf Hv. apply deref_is_task. by eapply well_formed_slot.
Qed.

Lemma edit_total (row : Z) (dialog : option (string * Z)) (s : App) :
  well_formed s = true -> exists s', _edit_selected_task row dialog s = Ok s'.
Proof.
  intros Hwf. unfold _edit_selected_task.
  destruct (Z.leb_spec 0 row) as [H0|]; [|by eexists].
  destruct (Z.ltb_spec row (len (tasks s))) as [Hlt|]; [|by eexists].
  destruct (lookup_in_range (tasks s) row (conj H0 Hlt)) as [v Hv].
  destruct (slot_is_task s _ v Hwf Hv) as (l & t & -> & Ht & Hd).
  simpl. rewrite (getitem_lookup _ _ _ H0 Hv). simpl. rewrite Ht. simpl.
  destruct dialog as [[field_text new_est]|]; [|by eexists].
  destruct (negb _); by eexists.
Qed.

Lemma check_state_eq (s : App) (row : nat) (l : loc) (t : Task) (b : bool) :
  tasks s !! row = Some (VDict l) -> heap s !! l = Some t ->
  _task_check_state_changed row b s =
    if Bool.eqb (done t) b then Ok s
    else Ok (_save_data
               (store l (mkTask (text t) (estimated t)
                                (if b then estimated t else completed t) b) s)).
Proof.
  intros Hv Ht. unfold _task_check_state_changed.
  rewrite Hv. simpl. rewrite Ht. simpl.
  destruct (Bool.eqb (done t) b); [done|]. by destruct b.
Qed.

Lemma check_state_well_formed (row : nat) (b : bool) (s : App) :
  well_formed s = true ->
  exists s', _task_check_state_changed row b s = Ok s' /\ well_formed s' = true.
Proof.
  intros Hwf.
  destruct (tasks s !! row) as [v|] eqn:Hv.
  - destruct (slot_is_task s _ v Hwf Hv) as (l & t & -> & Ht & _).
    rewrite (check_state_eq s row l t b Hv Ht).
    destruct (Bool.eqb (done t) b); eexists; (split; [reflexivity|]); [done|].
    eapply well_formed_ext; [| | |exact Hwf]; simpl; auto.
    intros v'. by rewrite is_task_insert.
  - exists s. unfold _task_check_state_changed. by rewrite Hv.
Qed.

(** X11. On a list whose slots all hold task dicts (and with an active
    index that is not negative), crediting, adding, editing, deleting,
    ticking a check box and clicking an item return without raising and
    leave such a list. *)
Theorem task_handlers_keep_well_formed (s : App) :
  well_formed s = true ->
  (exists s', _update_task_progress s = Ok s' /\ well_formed s' = true) /\
  (forall input estimate, well_formed (_add_task input estimate s) = true) /\
  (forall row dialog,
     exists s', _edit_selected_task row dialog s = Ok s' /\ well_formed s' = true) /\
  (forall selected yes,
     well_formed (_delete_selected_tasks selected yes s) = true) /\
  (forall row is_checked,
     exists s', _task_check_state_changed row is_checked s = Ok s'
                /\ well_formed s' = true) /\
  (forall data, 0 <= data -> well_formed (_task_item_clicked data s) = true).
Proof.
  intros Hwf.
  split.
  { destruct (progress_total s Hwf) as [s' Hs'].
    exists s'. split; [exact Hs'|]. by eapply progress_well_formed. }
  split; [intros; by apply add_task_well_formed|].
  split.
  { intros row dialog. destruct (edit_total row dialog s Hwf) as [s' Hs'].
    exists s'. split; [exact Hs'|]. by eapply edit_well_formed. }
  split; [intros; by apply delete_well_formed|].
  split; [intros; by apply check_state_well_formed|].
  intros data Hdata. by apply item_clicked_well_formed.
Qed.

Lemma task_handlers_keep_well_formed_witness :
  (exists s', _update_task_progress first_active = Ok s'
              /\ well_formed s' = true) /\
  (forall input estimate,
     well_formed (_add_task input estimate first_active) = true) /\
  (forall row dialog,
     exists s', _edit_selected_task row dialog first_active = Ok s'
                /\ well_formed s' = true) /\
  (forall selected yes,
     well_formed (_delete_selected_tasks selected yes first_active) = true) /\
  (forall row is_checked,
     exists s', _task_check_state_changed row is_checked first_active = Ok s'
                /\ well_formed s' = true) /\
  (forall data, 0 <= data ->
     well_formed (_task_item_clicked data first_active) = true).
Proof. apply (task_handlers_keep_well_formed first_active). reflexivity. Defined.

(* ===================================================================== *)
(** ** After a drop *)
(* ===================================================================== *)

Lemma drop_tasks (moved : list Z) (parent_saves : bool) (s : App) :
  tasks (dropEvent moved parent_saves s) = map VInt moved.
Proof. unfold dropEvent. by destruct parent_saves. Qed.

Lemma lookup_map_VInt (moved : list Z) (i : Z) :
  0 <= i < len moved ->
  exists n, map VInt moved !! Z.to_nat i = Some (VInt n).
Proof.
  intros Hi. destruct (lookup_in_range moved i Hi) as [n Hn].
  exists n. change (map VInt moved) with (VInt <$> moved).
  by rewrite list_lookup_fmap, Hn.
Qed.

(** X12. A drop refills the task list with the position numbers that the
    items carry: no slot holds a task dict any more, whatever the order of
    the items.  Until the list is reloaded, crediting an active index that
    lies within the list, opening the edit dialog on a row and ticking the
    check box of a row raise [TypeError]. *)
Theorem drop_replaces_tasks_by_numbers (moved : list Z) (parent_saves : bool)
    (s : App) :
  let s' := dropEvent moved parent_saves s in
  tasks s' = map VInt moved /\
  (moved <> [] -> well_formed s' = false) /\
  (forall i, current_task_index s = Some i -> 0 <= i < len moved ->
             _update_task_progress s' = Raise TypeError) /\
  (forall row dialog, 0 <= row < len moved ->
             _edit_selected_task row dialog s' = Raise TypeError) /\
  (forall row is_checked, (row < length moved)%nat ->
             _task_check_state_changed row is_checked s' = Raise TypeError).
Proof.
  intros s'. pose proof (drop_tasks moved parent_saves s) as Ht.
  fold s' in Ht.
  assert (current_task_index s' = current_task_index s) as Hidx.
  { subst s'. unfold dropEvent. by destruct parent_saves. }
  assert (len (tasks s') = len moved) as Hlen.
  { rewrite Ht. unfold len. by rewrite length_map. }
  split; [exact Ht|]. split; [|split; [|split]].
  - intros Hne. unfold well_formed. rewrite Ht.
    destruct moved as [|n moved]; [done|]. reflexivity.
  - intros i Hi Hrange. unfold _update_task_progress.
    rewrite Hidx, Hi, Hlen.
    destruct (Z.ltb_spec i (len moved)); [|lia].
    destruct (lookup_map_VInt moved i Hrange) as [n Hn].
    rewrite Ht, (getitem_lookup _ _ _ (proj1 Hrange) Hn). reflexivity.
  - intros row dialog Hrange. unfold _edit_selected_task. rewrite Hlen.
    destruct (Z.leb_spec 0 row); [|lia].
    destruct (Z.ltb_spec row (len moved)); [|lia]. simpl.
    destruct (lookup_map_VInt moved row Hrange) as [n Hn].
    rewrite Ht, (getitem_lookup _ _ _ (proj1 Hrange) Hn). reflexivity.
  - intros row is_checked Hrow. unfold _task_check_state_changed.
    destruct (lookup_map_VInt moved (Z.of_nat row)) as [n Hn];
      [unfold len; lia|].
    rewrite Nat2Z.id in Hn. by rewrite Ht, Hn.
Qed.

Lemma drop_replaces_tasks_by_numbers_witness :
  let s' := dropEvent [1; 2; 0] false first_active in
  tasks s' = map VInt [1; 2; 0] /\
  well_formed s' = false /\
  _update_task_progress s' = Raise TypeError /\
  _edit_selected_task 1 None s' = Raise TypeError /\
  _task_check_state_changed 2 true s' = Raise TypeError.
Proof.
  destruct (drop_replaces_tasks_by_numbers [1; 2; 0] false first_active)
    as (Ht & Hwf & Hcredit & Hedit & Hcheck).
  split; [exact Ht|].
  split; [apply Hwf; discriminate|].
  split; [apply (Hcredit 0); [reflexivity | vm_compute; split; [discriminate|reflexivity]]|].
  split; [apply Hedit; vm_compute; split; [discriminate|reflexivity]|].
  apply Hcheck. vm_compute. lia.
Defined.

(* ===================================================================== *)
(** ** More on deletion *)
(* ===================================================================== *)

Lemma foldl_delete_row_sublist (rows : list Z) (s : App) :
  tasks (foldl delete_row s rows) `sublist_of` tasks s.
Proof.
  revert s. induction rows as [|r rows IH]; intros s; simpl; [done|].
  etrans; [apply IH|]. unfold delete_row.
  destruct (_ && _); [|done]. simpl.
  assert (tasks (if bool_decide (Some r = current_task_index s)
                 then set_current_task_index None s else s) = tasks s) as ->
    by (by destruct (bool_decide _)).
  apply sublist_delete.
Qed.

Lemma foldl_delete_row_index_cases (rows : list Z) (s : App) :
  current_task_index (foldl delete_row s rows) = current_task_index s
  \/ current_task_index (foldl delete_row s rows) = None.
Proof.
  revert s. induction rows as [|r rows IH]; intros s; simpl; [by left|].
  destruct (IH (delete_row s r)) as [->| ->]; [|by right].
  unfold delete_row. destruct (_ && _); [|by left].
  simpl. destruct (bool_decide _); [by right|by left].
Qed.

Lemma foldl_delete_row_outside (rows : list Z) (s : App) :
  Forall (fun r => r < 0 \/ len (tasks s) <= r) rows ->
  foldl delete_row s rows = s.
Proof.
  induction rows as [|r rows IH]; simpl; [done|].
  intros Hall. apply Forall_cons in Hall as [Hr Hall].
  rewrite delete_row_out_of_range by done. by apply IH.
Qed.

(** X13. On a well-formed list, whatever rows are selected and whatever the
    answer to the confirmation, deleting never adds or reorders tasks (what
    is left is a sublist of what there was), touches no task dict, and
    leaves the active index either as it was or cleared.  Rows outside the
    list are ignored: when every selected row is, list and index are as
    before. *)
Theorem delete_only_removes (selected : list Z) (yes : bool) (s : App) :
  well_formed s = true ->
  let s' := _delete_selected_tasks selected yes s in
  tasks s' `sublist_of` tasks s /\
  heap s' = heap s /\
  (current_task_index s' = current_task_index s \/ current_task_index s' = None) /\
  (Forall (fun r => r < 0 \/ len (tasks s) <= r) selected ->
   tasks s' = tasks s /\ current_task_index s' = current_task_index s).
Proof.
  intros _ s'. subst s'. unfold _delete_selected_tasks.
  destruct selected as [|r rest]; [by repeat split; auto|].
  destruct yes; [|by repeat split; auto].
  set (s0 := emit (Question "Confirm Delete") s).
  set (rows := sorted_reverse (r :: rest)).
  change (tasks (foldl delete_row s0 rows) `sublist_of` tasks s0 /\
          heap (foldl delete_row s0 rows) = heap s0 /\
          (current_task_index (foldl delete_row s0 rows) = current_task_index s0
           \/ current_task_index (foldl delete_row s0 rows) = None) /\
          (Forall (fun r => r < 0 \/ len (tasks s0) <= r) (r :: rest) ->
           tasks (foldl delete_row s0 rows) = tasks s0 /\
           current_task_index (foldl delete_row s0 rows) = current_task_index s0)).
  split; [apply foldl_delete_row_sublist|].
  split; [apply foldl_delete_row_heap|].
  split; [apply foldl_delete_row_index_cases|].
  intros Hall. rewrite foldl_delete_row_outside; [done|].
  subst rows. by rewrite sorted_reverse_perm.
Qed.

Lemma delete_only_removes_witness :
  let s' := _delete_selected_tasks [5; 1; -1] true first_active in
  tasks s' `sublist_of` tasks first_active /\
  heap s' = heap first_active /\
  (current_task_index s' = current_task_index first_active
   \/ current_task_index s' = None) /\
  (Forall (fun r => r < 0 \/ len (tasks first_active) <= r) [5; 1; -1] ->
   tasks s' = tasks first_active /\
   current_task_index s' = current_task_index first_active).
Proof. apply (delete_only_removes [5; 1; -1] true first_active). reflexivity. Defined.

(* ===================================================================== *)
(** ** Adding, editing and checking off *)
(* ===================================================================== *)

Lemma add_task_eq (input : string) (estimate : Z) (s : App) :
  strip input <> EmptyString ->
  _add_task input estimate s =
    _save_data (_update_task_list_display
      (set_tasks (tasks s ++ [VDict (length (heap s))])
         (set_heap (heap s ++ [mkTask (strip input) estimate 0 false]) s))).
Proof.
  intros Htxt. unfold _add_task. apply truthy_true in Htxt. by rewrite Htxt.
Qed.

(** X14. An active index left just past the end of the list (by the
    deletion of earlier rows) is picked up by the next task that is added:
    the new task is the active one, and the next credit goes to it. *)
Theorem add_task_revives_stale_index (input : string) (estimate : Z) (s : App) :
  well_formed s = true ->
  current_task_index s = Some (len (tasks s)) ->
  strip input <> EmptyString ->
  referent (_add_task input estimate s)
    = Some (length (heap s), mkTask (strip input) estimate 0 false).
Proof.
  intros _ Hidx Htxt. rewrite add_task_eq by done.
  unfold referent. simpl. rewrite Hidx.
  pose proof (len_nonneg (tasks s)) as Hn.
  destruct (Z.leb_spec 0 (len (tasks s))); [|lia].
  rewrite len_app.
  destruct (Z.ltb_spec (len (tasks s)) (len (tasks s) + len [VDict (length (heap s))]));
    [|unfold len in *; simpl in *; lia].
  simpl. unfold len. rewrite Nat2Z.id.
  rewrite lookup_app_r, Nat.sub_diag by lia. simpl.
  rewrite lookup_app_r, Nat.sub_diag by lia. reflexivity.
Qed.

Lemma add_task_revives_stale_index_witness :
  referent (_add_task "call bank" 2 stale_index)
    = Some (length (heap stale_index), mkTask (strip "call bank") 2 0 false).
Proof.
  apply (add_task_revives_stale_index "call bank" 2 stale_index);
    [reflexivity | reflexivity | vm_compute; discriminate].
Defined.

(** X15. Adding a task and then deleting the last row gives back the task
    list there was, and the active index, unless it was the stale index
    just past the end. *)
Theorem add_then_delete (input : string) (estimate : Z) (s : App) :
  well_formed s = true ->
  strip input <> EmptyString ->
  let s' := _delete_selected_tasks [len (tasks s)] true
              (_add_task input estimate s) in
  tasks s' = tasks s /\
  (current_task_index s <> Some (len (tasks s)) ->
   current_task_index s' = current_task_index s).
Proof.
  intros _ Htxt s'. subst s'. rewrite add_task_eq by done.
  set (s1 := _save_data _).
  assert (_delete_selected_tasks [len (tasks s)] true s1 =
          _save_data (_update_task_list_display
            (delete_row (emit (Question "Confirm Delete") s1) (len (tasks s)))))
    as -> by reflexivity.
  set (s2 := emit (Question "Confirm Delete") s1).
  assert (tasks s2 = tasks s ++ [VDict (length (heap s))]) as Ht2 by done.
  assert (current_task_index s2 = current_task_index s) as Hi2 by done.
  clearbody s2. clear s1.
  pose proof (len_nonneg (tasks s)) as Hn.
  rewrite delete_row_in_range
    by (rewrite Ht2, len_app; unfold len in *; simpl; lia).
  rewrite Ht2, Hi2. unfold len. rewrite Nat2Z.id.
  rewrite (delete_middle (tasks s) []), app_nil_r.
  split; [reflexivity|].
  intros Hne. simpl.
  rewrite bool_decide_eq_false_2 by (unfold len in Hne; congruence).
  exact Hi2.
Qed.

Lemma add_then_delete_witness :
  let s' := _delete_selected_tasks [len (tasks first_active)] true
              (_add_task "call bank" 2 first_active) in
  tasks s' = tasks first_active /\
  (current_task_index first_active <> Some (len (tasks first_active)) ->
   current_task_index s' = current_task_index first_active).
Proof.
  apply (add_then_delete "call bank" 2 first_active);
    [reflexivity | vm_compute; discriminate].
Defined.



(** X17. Editing a task that is not done never marks it done, not even when
    the new estimate is at or below the completed count: text and estimate
    are replaced, [completed] and [done] stay. *)
Theorem edit_open_task_stays_open (s : App) (row : Z) (l : loc) (t : Task)
    (field_text : string) (new_est : Z) :
  0 <= row < len (tasks s) ->
  tasks s !! Z.to_nat row = Some (VDict l) ->
  heap s !! l = Some t ->
  done t = false ->
  strip field_text <> EmptyString ->
  exists s',
    _edit_selected_task row (Some (field_text, new_est)) s = Ok s' /\
    tasks s' = tasks s /\
    current_task_index s' = current_task_index s /\
    heap s' = <[l := mkTask (strip field_text) new_est (completed t) false]> (heap s) /\
    log s' = log s ++ [SaveData].
Proof.
  intros [H0 Hlen] Hv Ht Hd Htxt.
  unfold _edit_selected_task.
  destruct (Z.leb_spec 0 row); [|lia].
  destruct (Z.ltb_spec row (len (tasks s))); [|lia].
  simpl. rewrite (getitem_lookup _ _ _ H0 Hv). simpl. rewrite Ht. simpl.
  apply truthy_true in Htxt. rewrite Htxt. simpl. rewrite Hd. simpl.
  eexists. split; [reflexivity|]. simpl.
  unfold with_estimated, with_text. simpl. by rewrite Hd.
Qed.

Lemma edit_open_task_stays_open_witness :
  exists s',
    _edit_selected_task 0 (Some (" write report ", 1)) first_active = Ok s' /\
    tasks s' = tasks first_active /\
    current_task_index s' = current_task_index first_active /\
    heap s' = <[0%nat := mkTask (strip " write report ") 1 2 false]>
                (heap first_active) /\
    log s' = log first_active ++ [SaveData].
Proof.
  apply (edit_open_task_stays_open first_active 0 0%nat
           (mkTask "write report" 3 2 false));
    [vm_compute; split; [discriminate | reflexivity]
    | reflexivity | reflexivity | reflexivity | vm_compute; discriminate].
Defined.

(** X18. Ticking or unticking the check box of a task sets [done] to the
    state of the box; ticking an open task also sets [completed] to the
    estimate, unticking leaves [completed] as it is.  The task list, the
    active index and the list widget are untouched; the data is saved when
    [done] changed and not otherwise, so the same signal once more changes
    nothing. *)
Theorem manual_check_effect (s : App) (row : nat) (l : loc) (t : Task)
    (is_checked : bool) :
  tasks s !! row = Some (VDict l) ->
  heap s !! l = Some t ->
  exists s' t',
    _task_check_state_changed row is_checked s = Ok s' /\
    heap s' !! l = Some t' /\
    (forall l', l' <> l -> heap s' !! l' = heap s !! l') /\
    done t' = is_checked /\
    text t' = text t /\ estimated t' = estimated t /\
    completed t' =
      (if is_checked && negb (done t) then estimated t else completed t) /\
    tasks s' = tasks s /\
    current_task_index s' = current_task_index s /\
    items s' = items s /\
    log s' = log s ++ (if Bool.eqb (done t) is_checked then [] else [SaveData]) /\
    _task_check_state_changed row is_checked s' = Ok s'.
Proof.
  intros Hv Ht. rewrite (check_state_eq s row l t is_checked Hv Ht).
  pose proof (lookup_lt_Some _ _ _ Ht) as Hl.
  destruct (Bool.eqb (done t) is_checked) eqn:Heq.
  - apply Bool.eqb_prop in Heq.
    exists s, t. split; [reflexivity|]. split; [exact Ht|].
    split; [done|]. split; [exact Heq|].
    split; [done|]. split; [done|].
    split; [rewrite <- Heq; by destruct (done t)|].
    split; [done|]. split; [done|]. split; [done|].
    split; [by rewrite app_nil_r|].
    rewrite (check_state_eq s row l t is_checked Hv Ht).
    by rewrite <- Heq, Bool.eqb_reflx.
  - apply Bool.eqb_false_iff in Heq.
    eexists. eexists. split; [reflexivity|]. simpl.
    split; [by apply list_lookup_insert_eq|].
    split; [intros l' Hne; by apply list_lookup_insert_ne|].
    split; [reflexivity|]. split; [reflexivity|]. split; [reflexivity|].
    split; [destruct is_checked, (done t); simpl; congruence|].
    split; [reflexivity|]. split; [reflexivity|]. split; [reflexivity|].
    split; [reflexivity|].
    erewrite check_state_eq;
      [|exact Hv|simpl; by apply list_lookup_insert_eq].
    simpl. by rewrite Bool.eqb_reflx.
Qed.

Lemma manual_check_effect_witness :
  exists s' t',
    _task_check_state_changed 0 true first_active = Ok s' /\
    heap s' !! 0%nat = Some t' /\
    (forall l', l' <> 0%nat -> heap s' !! l' = heap first_active !! l') /\
    done t' = true /\
    text t' = "write report" /\ estimated t' = 3 /\
    completed t' = (if true && negb false then 3 else 2) /\
    tasks s' = tasks first_active /\
    current_task_index s' = current_task_index first_active /\
    items s' = items first_active /\
    log s' = log first_active ++ (if Bool.eqb false true then [] else [SaveData]) /\
    _task_check_state_changed 0 true s' = Ok s'.
Proof.
  apply (manual_check_effect first_active 0 0%nat
           (mkTask "write report" 3 2 false) true); reflexivity.
Defined.

(** X19. Checking off the active task by hand does not clear the active
    index: the index goes on referring to the task, now done, and the
    credits of the focus phases that end afterwards change nothing. *)
Theorem manual_check_blocks_credit (s : App) (i : Z) (l : loc) (t : Task) :
  current_task_index s = Some i ->
  referent s = Some (l, t) ->
  done t = false ->
  exists s' t',
    _task_check_state_changed (Z.to_nat i) true s = Ok s' /\
    current_task_index s' = Some i /\
    referent s' = Some (l, t') /\
    done t' = true /\ completed t' = estimated t /\
    _update_task_progress s' = Ok s'.
Proof.
  intros Hi Href Hd.
  destruct (referent_inv s l t Href) as (i' & Hi' & [H0 Hlt] & Hv & Ht).
  assert (i' = i) as -> by congruence.
  rewrite (check_state_eq s (Z.to_nat i) l t true Hv Ht), Hd. simpl.
  pose proof (lookup_lt_Some _ _ _ Ht) as Hl.
  set (t' := mkTask (text t) (estimated t) (estimated t) true).
  assert (referent (_save_data (store l t' s)) = Some (l, t')) as Href'.
  { unfold referent. simpl. rewrite Hi.
    destruct (Z.leb_spec 0 i); [|lia].
    destruct (Z.ltb_spec i (len (tasks s))); [|lia].
    simpl. rewrite Hv. by rewrite list_lookup_insert_eq. }
  exists (_save_data (store l t' s)), t'.
  split; [reflexivity|]. split; [exact Hi|]. split; [exact Href'|].
  split; [reflexivity|]. split; [reflexivity|].
  by apply (progress_done _ l t').
Qed.

Lemma manual_check_blocks_credit_witness :
  exists s' t',
    _task_check_state_changed (Z.to_nat 0) true first_active = Ok s' /\
    current_task_index s' = Some 0 /\
    referent s' = Some (0%nat, t') /\
    done t' = true /\ completed t' = 3 /\
    _update_task_progress s' = Ok s'.
Proof.
  apply (manual_check_blocks_credit first_active 0 0%nat
           (mkTask "write report" 3 2 false)); reflexivity.
Defined.

(** X20. In a list widget that was just rebuilt, the item at row [k]
    carries [k]; clicking it makes the task at position [k] the active
    one. *)
Theorem click_after_display (s : App) (k : nat) :
  well_formed s = true ->
  (k < length (tasks s))%nat ->
  let s1 := _update_task_list_display s in
  items s1 !! k = Some (Z.of_nat k) /\
  exists l t,
    tasks s !! k = Some (VDict l) /\
    referent (_task_item_clicked (Z.of_nat k) s1) = Some (l, t) /\
    well_formed (_task_item_clicked (Z.of_nat k) s1) = true.
Proof.
  intros Hwf Hk s1. subst s1. split.
  - simpl. rewrite lookup_seqZ_lt by (unfold len; lia). reflexivity.
  - destruct (lookup_lt_is_Some_2 (tasks s) k Hk) as [v Hv].
    destruct (slot_is_task s k v Hwf Hv) as (l & t & -> & Ht & _).
    exists l, t. split; [exact Hv|]. split.
    + unfold referent. simpl.
      destruct (Z.leb_spec 0 (Z.of_nat k)); [|lia].
      destruct (Z.ltb_spec (Z.of_nat k) (len (tasks s)));
        [|unfold len in *; lia].
      simpl. rewrite Nat2Z.id, Hv. by rewrite Ht.
    + apply item_clicked_well_formed; [lia|done].
Qed.

Lemma click_after_display_witness :
  let s1 := _update_task_list_display three_tasks in
  items s1 !! 1%nat = Some (Z.of_nat 1) /\
  exists l t,
    tasks three_tasks !! 1%nat = Some (VDict l) /\
    referent (_task_item_clicked (Z.of_nat 1) s1) = Some (l, t) /\
    well_formed (_task_item_clicked (Z.of_nat 1) s1) = true.
Proof.
  apply (click_after_display three_tasks 1); [reflexivity | vm_compute; lia].
Defined.

(* ===================================================================== *)
(** ** From the first credit to completion *)
(* ===================================================================== *)

Lemma credits_snoc (n : nat) (s : App) :
  credits (S n) s = s' ← credits n s; _update_task_progress s'.
Proof.
  revert s. induction n as [|n IH]; intros s.
  - simpl. by destruct (_update_task_progress s).
  - change (credits (S (S n)) s)
      with (s' ← _update_task_progress s; credits (S n) s').
    change (credits (S n) s)
      with (s' ← _update_task_progress s; credits n s') at 1.
    destruct (_update_task_progress s) as [s1|e]; simpl; [apply IH|done].
Qed.

(** One credit that does not reach the estimate. *)
Lemma credit_below_estimate (s : App) (l : loc) (t : Task) :
  referent s = Some (l, t) -> done t = false ->
  completed t + 1 < estimated t ->
  exists s1,
    _update_task_progress s = Ok s1 /\
    referent s1 = Some (l, with_completed (completed t + 1) t) /\
    tasks s1 = tasks s.
Proof.
  intros Href Hd Hlt.
  rewrite (progress_open s l t Href Hd).
  destruct (Z.geb_spec (completed t + 1) (estimated t)) as [?|_]; [lia|].
  eexists. split; [reflexivity|].
  destruct (referent_inv s l t Href) as (i & Hi & [H0 Hlen] & Hv & Ht).
  pose proof (lookup_lt_Some _ _ _ Ht) as Hl.
  split; [|reflexivity].
  unfold referent. simpl. rewrite Hi.
  destruct (Z.leb_spec 0 i); [|lia].
  destruct (Z.ltb_spec i (len (tasks s))); [|lia].
  simpl. rewrite Hv, list_lookup_insert_eq by done.
  unfold credited, with_completed. simpl.
  destruct (Z.geb_spec (completed t + 1) (estimated t)) as [?|_]; [lia|].
  by rewrite Hd.
Qed.

Lemma credits_below_estimate (k : nat) (s : App) (l : loc) (t : Task) :
  referent s = Some (l, t) -> done t = false ->
  completed t + Z.of_nat k < estimated t ->
  exists sk,
    credits k s = Ok sk /\
    referent sk = Some (l, with_completed (completed t + Z.of_nat k) t) /\
    tasks sk = tasks s.
Proof.
  revert s t. induction k as [|k IH]; intros s t Href Hd Hlt.
  - exists s. split; [reflexivity|]. split; [|reflexivity].
    rewrite Href. do 2 f_equal. destruct t. unfold with_completed. simpl.
    f_equal. lia.
  - destruct (credit_below_estimate s l t Href Hd ltac:(lia))
      as (s1 & Hs1 & Href1 & Ht1).
    destruct (IH s1 _ Href1 Hd ltac:(simpl; lia)) as (sk & Hsk & Hrefk & Htk).
    exists sk. split; [simpl; by rewrite Hs1|].
    split; [|congruence].
    rewrite Hrefk. do 2 f_equal. unfold with_completed. simpl. f_equal. lia.
Qed.

(** X21. An open active task with [completed < estimated] takes exactly
    [estimated - completed] credits: each of the earlier ones adds one to
    [completed] and leaves the task open and active; the last one brings
    [completed] to the estimate, marks the task done and clears the active
    index. *)
Theorem credits_to_completion (s : App) (l : loc) (t : Task) :
  referent s = Some (l, t) ->
  done t = false ->
  completed t < estimated t ->
  let n := Z.to_nat (estimated t - completed t) in
  (forall k, (k < n)%nat ->
     exists sk, credits k s = Ok sk /\
                referent sk = Some (l, with_completed (completed t + Z.of_nat k) t)) /\
  exists s',
    credits n s = Ok s' /\
    heap s' !! l = Some (mkTask (text t) (estimated t) (estimated t) true) /\
    tasks s' = tasks s /\
    current_task_index s' = None.
Proof.
  intros Href Hd Hlt n. split.
  - intros k Hk.
    destruct (credits_below_estimate k s l t Href Hd ltac:(lia))
      as (sk & Hsk & Hrefk & _).
    by exists sk.
  - assert (n = S (Z.to_nat (estimated t - completed t - 1))) as Hn by lia.
    set (k := Z.to_nat (estimated t - completed t - 1)) in *.
    destruct (credits_below_estimate k s l t Href Hd ltac:(lia))
      as (sk & Hsk & Hrefk & Htk).
    rewrite Hn, credits_snoc, Hsk. simpl.
    rewrite (progress_open sk l _ Hrefk Hd). simpl.
    destruct (Z.geb_spec (completed t + Z.of_nat k + 1) (estimated t)) as [_|?];
      [|lia].
    destruct (referent_inv sk l _ Hrefk) as (i & _ & _ & _ & Htl).
    pose proof (lookup_lt_Some _ _ _ Htl) as Hl.
    eexists. split; [reflexivity|]. simpl.
    split; [|by split].
    rewrite list_lookup_insert_eq by (by rewrite length_insert).
    unfold credited. simpl.
    destruct (Z.geb_spec (completed t + Z.of_nat k + 1) (estimated t)) as [_|?];
      [|lia].
    do 2 f_equal. lia.
Qed.

Lemma credits_to_completion_witness :
  let n := Z.to_nat (3 - 0) in
  (forall k, (k < n)%nat ->
     exists sk, credits k (_task_item_clicked 0
                             (init [mkTask "write report" 3 0 false])) = Ok sk /\
                referent sk = Some (0%nat,
                                    with_completed (0 + Z.of_nat k)
                                      (mkTask "write report" 3 0 false))) /\
  exists s',
    credits n (_task_item_clicked 0 (init [mkTask "write report" 3 0 false]))
      = Ok s' /\
    heap s' !! 0%nat = Some (mkTask "write report" 3 3 true) /\
    tasks s' = tasks (_task_item_clicked 0 (init [mkTask "write report" 3 0 false])) /\
    current_task_index s' = None.
Proof.
  apply (credits_to_completion
           (_task_item_clicked 0 (init [mkTask "write report" 3 0 false]))
           0%nat (mkTask "write report" 3 0 false)); reflexivity.
Defined.

(* ===================================================================== *)
(** ** The settings dialog and dark mode *)
(* ===================================================================== *)

(** X22. The settings dialog accepted with three positive numbers: the
    timer is stopped, minutes, seconds and interval are the new ones (the
    seconds being the minutes times 60), the session is put back to the
    focus phase with its new full duration and the cycle counter at 0, the
    data is saved and the "Settings Saved" box is shown; tasks, active
    index and dark mode are untouched. *)
Theorem settings_applied (focus short long interval : Z) (w : Window) :
  0 < focus -> 0 < short -> 0 < long ->
  let w' := _open_settings_dialog
              (Some (mkSettingsFields (Some focus) (Some short) (Some long)
                                      interval)) w in
  focus_time_min w' = focus /\
  short_break_time_min w' = short /\
  long_break_time_min w' = long /\
  minutes_agree w' /\
  long_break_interval (app w') = interval /\
  current_state (app w') = pomodoro /\
  completed_pomodoros_in_cycle (app w') = 0 /\
  current_time_left (app w') = focus * 60 /\
  is_running (app w') = false /\
  heap (app w') = heap (app w) /\ tasks (app w') = tasks (app w) /\
  current_task_index (app w') = current_task_index (app w) /\
  dark_mode_enabled w' = dark_mode_enabled w /\
  log (app w') =
    log (app w) ++ (if is_running (app w) then [TimerStop] else [])
      ++ [SaveData; Information "Settings Saved" "New settings have been applied!"].
Proof.
  intros Hf Hs Hl w'. subst w'.
  unfold _open_settings_dialog, get_settings. simpl.
  destruct (Z.leb_spec focus 0); [lia|].
  destruct (Z.leb_spec short 0); [lia|].
  destruct (Z.leb_spec long 0); [lia|]. simpl.
  unfold minutes_agree, _toggle_timer_off_if_running.
  destruct (is_running (app w)) eqn:Hr; simpl;
    rewrite ?Hr, ?app_nil_r, <- ?app_assoc; simpl; by repeat split.
Qed.

Lemma settings_applied_witness :
  let w' := _open_settings_dialog
              (Some (mkSettingsFields (Some 50) (Some 10) (Some 30) 2))
              three_tasks_window in
  focus_time_min w' = 50 /\
  short_break_time_min w' = 10 /\
  long_break_time_min w' = 30 /\
  minutes_agree w' /\
  long_break_interval (app w') = 2 /\
  current_state (app w') = pomodoro /\
  completed_pomodoros_in_cycle (app w') = 0 /\
  current_time_left (app w') = 50 * 60 /\
  is_running (app w') = false /\
  heap (app w') = heap (app three_tasks_window) /\
  tasks (app w') = tasks (app three_tasks_window) /\
  current_task_index (app w') = current_task_index (app three_tasks_window) /\
  dark_mode_enabled w' = dark_mode_enabled three_tasks_window /\
  log (app w') =
    log (app three_tasks_window)
      ++ (if is_running (app three_tasks_window) then [TimerStop] else [])
      ++ [SaveData; Information "Settings Saved" "New settings have been applied!"].
Proof. apply (settings_applied 50 10 30 2 three_tasks_window); reflexivity. Defined.

(** X23. The settings dialog cancelled, or accepted with a field that is
    not a number or not positive: the timer is stopped all the same, one
    "Input Error" warning is shown in the second case, and nothing else
    changes; in particular nothing is saved. *)
Theorem settings_rejected (dialog : option SettingsFields) (w : Window) :
  match dialog with
  | None => True
  | Some d => fields_valid d = false
  end ->
  exists shown,
    _open_settings_dialog dialog w =
      set_app (set_log (log (_toggle_timer_off_if_running (app w)) ++ shown)
                       (_toggle_timer_off_if_running (app w))) w /\
    match dialog with
    | None => shown = []
    | Some _ => exists message, shown = [Warning "Input Error" message]
    end.
Proof.
  intros Hbad. destruct dialog as [d|].
  - unfold _open_settings_dialog, get_settings.
    unfold fields_valid in Hbad.
    destruct (focus_input d) as [focus|];
      [destruct (short_break_input d) as [short|];
       [destruct (long_break_input d) as [long|]|]|].
    + destruct (Z.ltb_spec 0 focus), (Z.ltb_spec 0 short), (Z.ltb_spec 0 long);
        try discriminate Hbad;
        destruct (Z.leb_spec focus 0), (Z.leb_spec short 0), (Z.leb_spec long 0);
        try lia; simpl; eexists; (split; [reflexivity|]); by eexists.
    + eexists. split; [reflexivity|]. by eexists.
    + eexists. split; [reflexivity|]. by eexists.
    + eexists. split; [reflexivity|]. by eexists.
  - exists []. split; [|reflexivity].
    unfold _open_settings_dialog. simpl. rewrite app_nil_r.
    unfold set_app. f_equal.
    by destruct (_toggle_timer_off_if_running (app w)).
Qed.

Lemma settings_rejected_witness :
  exists shown,
    _open_settings_dialog
      (Some (mkSettingsFields (Some 25) None (Some 15) 4)) three_tasks_window =
      set_app (set_log (log (_toggle_timer_off_if_running (app three_tasks_window))
                          ++ shown)
                       (_toggle_timer_off_if_running (app three_tasks_window)))
              three_tasks_window /\
    exists message, shown = [Warning "Input Error" message].
Proof.
  apply (settings_rejected (Some (mkSettingsFields (Some 25) None (Some 15) 4))
           three_tasks_window).
  reflexivity.
Defined.

(** X24. Switching dark mode on or off reloads the countdown with the full
    duration of the current phase, also in the middle of a phase and
    without stopping the timer; phase, counter and tasks stay, and the data
    is saved. *)
Theorem dark_mode_reloads_countdown (checked : bool) (w : Window) :
  let w' := _toggle_dark_mode checked w in
  dark_mode_enabled w' = checked /\
  current_time_left (app w') = duration (app w) (current_state (app w)) /\
  is_running (app w') = is_running (app w) /\
  current_state (app w') = current_state (app w) /\
  completed_pomodoros_in_cycle (app w')
    = completed_pomodoros_in_cycle (app w) /\
  tasks (app w') = tasks (app w) /\ heap (app w') = heap (app w) /\
  current_task_index (app w') = current_task_index (app w) /\
  log (app w') = log (app w) ++ [SaveData].
Proof.
  unfold _toggle_dark_mode, _update_ui_for_state. simpl.
  destruct (current_state (app w)) eqn:Hph; simpl; by repeat split.
Qed.

(* ===================================================================== *)
(** ** Loading and saving *)
(* ===================================================================== *)

Lemma dump_loaded_from (pre suf : list Task) :
  mapM (dump_slot (pre ++ suf)) (map VDict (seq (length pre) (length suf)))
    = Some suf.
Proof.
  revert pre. induction suf as [|t suf IH]; intros pre; [done|].
  simpl. rewrite list_lookup_middle by done. simpl.
  specialize (IH (pre ++ [t])).
  rewrite <- app_assoc, length_app in IH. simpl in IH.
  rewrite Nat.add_1_r in IH. by rewrite IH.
Qed.

Lemma dump_loaded (ts : list Task) :
  mapM (dump_slot ts) (map VDict (seq 0 (length ts))) = Some ts.
Proof. apply (dump_loaded_from [] ts). Qed.

Lemma loaded_well_formed (file : option DataJson) (focus_sound break_sound : bool) :
  well_formed (app (__init__ file focus_sound break_sound)) = true.
Proof.
  unfold __init__.
  set (ld := _load_data file).
  rewrite <- (init_well_formed (ld_tasks ld)).
  reflexivity.
Qed.



(** X26. Loading a file and saving at once writes the file back with the
    defaults of [_load_data] filled in for the keys that were missing: a
    file that has all its keys is written back as it was. *)
Theorem load_then_save (data : DataJson) (focus_sound break_sound : bool) :
  saved_data (__init__ (Some data) focus_sound break_sound)
    = Some (with_defaults data).
Proof.
  unfold saved_data, __init__. simpl.
  by rewrite dump_loaded.
Qed.

Lemma saved_data_is_Some (w : Window) :
  well_formed (app w) = true ->
  exists ts,
    mapM (dump_slot (heap (app w))) (tasks (app w)) = Some ts /\
    length ts = length (tasks (app w)).
Proof.
  intros Hwf.
  assert (is_Some (mapM (dump_slot (heap (app w))) (tasks (app w)))) as [ts Hts].
  { apply mapM_is_Some. apply Forall_forall. intros v Hin.
    apply list_elem_of_lookup in Hin as [i Hi].
    destruct (slot_is_task (app w) i v Hwf Hi) as (l & t & -> & Ht & _).
    simpl. by rewrite Ht. }
  exists ts. split; [exact Hts|].
  apply mapM_Some_1 in Hts. symmetry. by eapply Forall2_length.
Qed.

(** X27. What is saved survives a restart: from a well-formed task list
    [_save_data] writes a file from which start-up reads the same minutes,
    interval and dark-mode flag and as many tasks, and saving again writes
    the very same file. *)
Theorem save_then_load (w : Window) (focus_sound break_sound : bool) :
  well_formed (app w) = true ->
  exists data,
    saved_data w = Some data /\
    let w' := __init__ (Some data) focus_sound break_sound in
    focus_time_min w' = focus_time_min w /\
    short_break_time_min w' = short_break_time_min w /\
    long_break_time_min w' = long_break_time_min w /\
    long_break_interval (app w') = long_break_interval (app w) /\
    dark_mode_enabled w' = dark_mode_enabled w /\
    length (tasks (app w')) = length (tasks (app w)) /\
    saved_data w' = Some data.
Proof.
  intros Hwf. destruct (saved_data_is_Some w Hwf) as (ts & Hts & Hlen).
  unfold saved_data at 1. rewrite Hts.
  eexists. split; [reflexivity|].
  repeat (split; [reflexivity|]).
  split.
  - simpl. by rewrite length_map, length_seq.
  - unfold saved_data, __init__. simpl. by rewrite dump_loaded.
Qed.

Lemma save_then_load_witness :
  exists data,
    saved_data three_tasks_window = Some data /\
    let w' := __init__ (Some data) true false in
    focus_time_min w' = focus_time_min three_tasks_window /\
    short_break_time_min w' = short_break_time_min three_tasks_window /\
    long_break_time_min w' = long_break_time_min three_tasks_window /\
    long_break_interval (app w') = long_break_interval (app three_tasks_window) /\
    dark_mode_enabled w' = dark_mode_enabled three_tasks_window /\
    length (tasks (app w')) = length (tasks (app three_tasks_window)) /\
    saved_data w' = Some data.
Proof. apply (save_then_load three_tasks_window true false). reflexivity. Defined.

(** X28. Start-up does not check what it reads: with
    ["long_break_interval": 0] in the file the window opens, and the first
    focus phase that ends raises [ZeroDivisionError]. *)
Theorem loaded_zero_interval_raises (data : DataJson) (settings : SettingsJson)
    (focus_sound break_sound : bool) :
  j_settings data = Some settings ->
  j_long_break_interval settings = Some 0 ->
  _advance_state_machine (app (__init__ (Some data) focus_sound break_sound))
    = Raise ZeroDivisionError.
Proof.
  intros Hs Hi. apply advance_zero_interval.
  - apply loaded_well_formed.
  - reflexivity.
  - unfold __init__. simpl. rewrite Hs. simpl. by rewrite Hi.
Qed.

Lemma loaded_zero_interval_raises_witness :
  _advance_state_machine
    (app (__init__
            (Some (mkDataJson
                     (Some (mkSettingsJson None None None (Some 0) None)) None))
            true true))
    = Raise ZeroDivisionError.
Proof.
  apply (loaded_zero_interval_raises
           (mkDataJson (Some (mkSettingsJson None None None (Some 0) None)) None)
           (mkSettingsJson None None None (Some 0) None) true true);
    reflexivity.
Defined.
